(** * Store API: catalogue listing, lookup and projection

    A shallow embedding of [main.py] and [schemas.py].  Stored documents are
    finite maps from field names to BSON-like values, the handlers are
    functions in an exception monad, and the two libraries the handlers call
    into (pydantic on the Python side, the document store on the other) are
    interfaces whose laws record only what both sides document. *)

From Stdlib Require Import QArith.
From stdpp Require Import base option list strings gmap sorting.

Set Default Proof Using "Type".
Set Warnings "-register-all".
Local Open Scope Z_scope.

(** ** Text, values and documents *)

(** A Python [str] is a sequence of code points. *)
Definition char := N.
Definition text := list char.

(** The string literals of the source are UTF-8; [decode] reads the code
    points off the bytes (sequences of one to three bytes, which covers the
    Latin and Cyrillic text of the source). *)
Fixpoint decode (bytes : list N) : text :=
  match bytes with
  | [] => []
  | b1 :: rest =>
      if (b1 <? 192)%N then b1 :: decode rest
      else match rest with
           | [] => [b1]
           | b2 :: rest2 =>
               if (b1 <? 224)%N
               then ((b1 - 192) * 64 + (b2 - 128))%N :: decode rest2
               else match rest2 with
                    | [] => [b1; b2]
                    | b3 :: rest3 =>
                        ((b1 - 224) * 4096 + (b2 - 128) * 64 + (b3 - 128))%N
                        :: decode rest3
                    end
           end
  end.

Definition txt (s : string) : text :=
  decode (Ascii.N_of_ascii <$> String.list_ascii_of_string s).

(** The values a stored document can hold. *)
Inductive value :=
| VNull
| VBool (b : bool)
| VInt (z : Z)
| VDouble (x : Q)
| VStr (s : text)
| VArr (l : list value)
| VOid (hex : text).

Abbreviation doc := (gmap string value).

(** The number a numeric value denotes. *)
Definition num (v : value) : option Q :=
  match v with
  | VInt z => Some (inject_Z z)
  | VDouble x => Some x
  | _ => None
  end.

(** Python truth value of a stored value ([if d.get("_id")]). *)
Definition truthy (v : value) : bool :=
  match v with
  | VNull => false
  | VBool b => b
  | VInt z => negb (z =? 0)
  | VDouble x => negb (Qeq_bool x 0)
  | VStr s => negb (bool_decide (s = []))
  | VArr l => match l with [] => false | _ => true end
  | VOid _ => true
  end.

(** Truth value of an optional string parameter ([if q:], [if category:]). *)
Definition nonempty (s : option text) : option text :=
  match s with
  | Some (c :: r) => Some (c :: r)
  | _ => None
  end.

(** ** Exceptions *)

Inductive exn :=
| RequestValidationError (params : list string)
| ValidationError
| InvalidId
| NotImplementedError
| OutsideModel.

Inductive result (A : Type) :=
| Ok (a : A)
| Err (e : exn).
Arguments Ok {A} a.
Arguments Err {A} e.

(** Sequencing: the first exception raised ends the computation. *)
Global Instance result_ret : MRet result := λ A a, Ok a.
Global Instance result_bind : MBind result := λ A B k m,
  match m with
  | Ok a => k a
  | Err e => Err e
  end.

Definition option_of {A} (m : result A) : option A :=
  match m with
  | Ok a => Some a
  | Err _ => None
  end.

(** [try: body except Exception: handler]. *)
Definition try_except {A} (body : result A) (handler : A) : result A :=
  match body with
  | Ok a => Ok a
  | Err _ => Ok handler
  end.

(** A list comprehension whose element expression may raise. *)
Fixpoint comprehension {A B} (f : A → result B) (l : list A) : result (list B) :=
  match l with
  | [] => Ok []
  | a :: l' => b ← f a; bs ← comprehension f l'; Ok (b :: bs)
  end.

(** ** The Python side: builtins and pydantic field validation

    [py_str] is [str(...)]; on an ObjectId it gives the 24-digit hex form.
    The [as_*] functions are pydantic's validation of a supplied value at a
    declared field type; the laws say that a value already of the declared
    type is accepted as it is (an integer where a float is declared becomes
    that number). What they do on other values is left open. *)
Record PyRuntime := {
  py_str : value → text;
  as_str : value → option text;
  as_float : value → option Q;
  as_int : value → option Z;
  as_bool : value → option bool;
  py_str_oid : ∀ hex, py_str (VOid hex) = hex;
  as_str_ok : ∀ s, as_str (VStr s) = Some s;
  as_float_ok : ∀ v x, num v = Some x → as_float v = Some x;
  as_int_ok : ∀ z, as_int (VInt z) = Some z;
  as_bool_ok : ∀ b, as_bool (VBool b) = Some b
}.

Section Models.
Context (P : PyRuntime).

(** [Optional[str]]: [None] is accepted as such. *)
Definition as_opt_str (v : value) : option (option text) :=
  match v with
  | VNull => Some None
  | _ => Some <$> as_str P v
  end.

(** [List[str]]: a list each of whose elements validates as [str]. *)
Definition as_str_list (v : value) : option (list text) :=
  match v with
  | VArr l => mapM (as_str P) l
  | _ => None
  end.

(** A field declared without a default. *)
Definition required {A} (f : value → option A) (kw : doc) (k : string)
  : result A :=
  match kw !! k with
  | Some v => match f v with Some a => Ok a | None => Err ValidationError end
  | None => Err ValidationError
  end.

(** A field declared with a default. *)
Definition defaulted {A} (f : value → option A) (dflt : A) (kw : doc)
    (k : string) : result A :=
  match kw !! k with
  | Some v => match f v with Some a => Ok a | None => Err ValidationError end
  | None => Ok dflt
  end.
End Models.

(** [class CategoryOut(BaseModel)] *)
Record CategoryOut := {
  c_id : text;
  c_name : text;
  c_slug : text;
  c_icon : option text
}.

(** [class ProductOut(BaseModel)] *)
Record ProductOut := {
  p_id : text;
  p_title : text;
  p_description : option text;
  p_price : Q;
  p_category : text;
  p_brand : option text;
  p_rating : Q;
  p_reviews_count : Z;
  p_images : list text;
  p_colors : list text;
  p_sizes : list text;
  p_in_stock : bool;
  p_discount_percent : Q;
  p_tags : list text
}.

(** [class Product(BaseModel)] of [schemas.py]: the stored shape, without
    [id], with its bounds and defaults. *)
Record Product := {
  s_title : text;
  s_description : option text;
  s_price : Q;
  s_category : text;
  s_brand : option text;
  s_rating : Q;
  s_reviews_count : Z;
  s_images : list text;
  s_colors : list text;
  s_sizes : list text;
  s_in_stock : bool;
  s_discount_percent : Q;
  s_tags : list text
}.

(** [class Category(BaseModel)] of [schemas.py]. *)
Record Category := {
  s_name : text;
  s_slug : text;
  s_icon : option text
}.

(** The names of the fields of the public product schema. *)
Definition ProductOut_fields : list string :=
  ["id"; "title"; "description"; "price"; "category"; "brand"; "rating";
   "reviews_count"; "images"; "colors"; "sizes"; "in_stock";
   "discount_percent"; "tags"].

(** [Field(..., ge=lo)] and [Field(..., ge=lo, le=hi)]. *)
Definition ge_q (lo : Q) (x : Q) : option Q :=
  if Qle_bool lo x then Some x else None.
Definition between_q (lo hi : Q) (x : Q) : option Q :=
  if Qle_bool lo x && Qle_bool x hi then Some x else None.
Definition ge_z (lo : Z) (z : Z) : option Z :=
  if lo <=? z then Some z else None.

Section Constructors.
Context (P : PyRuntime).

(** [CategoryOut] built from keyword arguments [kw]; keys that are not fields are ignored. *)
Definition CategoryOut_new (kw : doc) : result CategoryOut :=
  i ← required (as_str P) kw "id";
  n ← required (as_str P) kw "name";
  s ← required (as_str P) kw "slug";
  ic ← defaulted (as_opt_str P) None kw "icon";
  Ok {| c_id := i; c_name := n; c_slug := s; c_icon := ic |}.

(** [ProductOut] built from keyword arguments [kw]; keys that are not fields are ignored. *)
Definition ProductOut_new (kw : doc) : result ProductOut :=
  i ← required (as_str P) kw "id";
  t ← required (as_str P) kw "title";
  de ← defaulted (as_opt_str P) None kw "description";
  pr ← required (as_float P) kw "price";
  ca ← required (as_str P) kw "category";
  br ← defaulted (as_opt_str P) None kw "brand";
  ra ← required (as_float P) kw "rating";
  rc ← required (as_int P) kw "reviews_count";
  im ← defaulted (as_str_list P) [] kw "images";
  co ← defaulted (as_str_list P) [] kw "colors";
  si ← defaulted (as_str_list P) [] kw "sizes";
  st ← defaulted (as_bool P) true kw "in_stock";
  di ← defaulted (as_float P) 0%Q kw "discount_percent";
  ta ← defaulted (as_str_list P) [] kw "tags";
  Ok {| p_id := i; p_title := t; p_description := de; p_price := pr;
        p_category := ca; p_brand := br; p_rating := ra;
        p_reviews_count := rc; p_images := im; p_colors := co;
        p_sizes := si; p_in_stock := st; p_discount_percent := di;
        p_tags := ta |}.

(** [Product] built from keyword arguments [kw] of [schemas.py]. *)
Definition Product_new (kw : doc) : result Product :=
  t ← required (as_str P) kw "title";
  de ← defaulted (as_opt_str P) None kw "description";
  pr ← required (λ v, as_float P v ≫= ge_q 0%Q) kw "price";
  ca ← required (as_str P) kw "category";
  br ← defaulted (as_opt_str P) None kw "brand";
  ra ← defaulted (λ v, as_float P v ≫= between_q 0%Q 5%Q) (9 # 2)%Q kw "rating";
  rc ← defaulted (λ v, as_int P v ≫= ge_z 0) 0 kw "reviews_count";
  im ← defaulted (as_str_list P) [] kw "images";
  co ← defaulted (as_str_list P) [] kw "colors";
  si ← defaulted (as_str_list P) [] kw "sizes";
  st ← defaulted (as_bool P) true kw "in_stock";
  di ← defaulted (λ v, as_float P v ≫= between_q 0%Q 95%Q) 0%Q kw "discount_percent";
  ta ← defaulted (as_str_list P) [] kw "tags";
  Ok {| s_title := t; s_description := de; s_price := pr;
        s_category := ca; s_brand := br; s_rating := ra;
        s_reviews_count := rc; s_images := im; s_colors := co;
        s_sizes := si; s_in_stock := st; s_discount_percent := di;
        s_tags := ta |}.

(** [Category] built from keyword arguments [kw] of [schemas.py]. *)
Definition Category_new (kw : doc) : result Category :=
  n ← required (as_str P) kw "name";
  s ← required (as_str P) kw "slug";
  ic ← defaulted (as_opt_str P) None kw "icon";
  Ok {| s_name := n; s_slug := s; s_icon := ic |}.

(** [_to_id_str]: copy the document; when it has a truthy [_id], remove
    it and store its string form under [id]. *)
Definition _to_id_str (d : doc) : doc :=
  match d !! "_id" with
  | Some v => if truthy v then <["id" := VStr (py_str P v)]> (delete "_id" d) else d
  | None => d
  end.

(** The projection of one stored product, as both product handlers do it. *)
Definition project_product (d : doc) : result ProductOut :=
  ProductOut_new (_to_id_str d).

Definition project_category (d : doc) : result CategoryOut :=
  CategoryOut_new (_to_id_str d).
End Constructors.

(** ** The store side: queries, regular expressions, cursors *)

(** The query documents the handlers build.  A query is the list of the
    entries of the Python dict, all of which a document has to satisfy. *)
Inductive cond :=
| RegexI (pattern : text)
| Range (gte lte : option Q)
| IsStr (s : text)
| IsOid (hex : text).

Inductive clause :=
| Field (name : string) (c : cond)
| Or (alts : list (string * cond)).

Definition query := list clause.

(** The fragment of the regular-expression syntax that is modelled: a
    character that is no metacharacter stands for itself, and a dot for any
    character but a line feed.  A pattern with another metacharacter is
    outside the model. *)
Definition metachars : text := txt "\^$.|?*+()[]{}".

Inductive atom :=
| Lit (c : char)
| AnyChar.

Definition parse_atom (c : char) : option atom :=
  if bool_decide (c = 46%N) then Some AnyChar
  else if bool_decide (c ∈ metachars) then None
  else Some (Lit c).

Definition parse_pattern (q : text) : option (list atom) := mapM parse_atom q.

Section Regex.
Context (fold : char → char).

Definition atom_matches (a : atom) (c : char) : bool :=
  match a with
  | Lit x => bool_decide (fold x = fold c)
  | AnyChar => negb (bool_decide (c = 10%N))
  end.

(** The pattern matches a prefix of the subject. *)
Fixpoint match_here (p : list atom) (s : text) : bool :=
  match p, s with
  | [], _ => true
  | a :: p', c :: s' => atom_matches a c && match_here p' s'
  | _ :: _, [] => false
  end.

(** The pattern matches somewhere in the subject (it is not anchored). *)
Fixpoint search (p : list atom) (s : text) : bool :=
  match_here p s ||
  match s with
  | [] => false
  | _ :: s' => search p s'
  end.

(** [$regex] with [$options: "i"] on a string. *)
Definition regex_search (pattern : text) (s : text) : bool :=
  match parse_pattern pattern with
  | Some p => search p s
  | None => false
  end.
End Regex.

(** The values a condition on a field is tried against: the value itself,
    or each element when the field holds an array. *)
Definition candidates (v : option value) : list value :=
  match v with
  | None => []
  | Some (VArr l) => l
  | Some x => [x]
  end.

Definition num_test (f : Q → bool) (v : value) : bool :=
  match num v with
  | Some x => f x
  | None => false
  end.

(** Order of two documents under [sort(key, direction)], from the order
    [le] of their sort keys; a missing field is the key [None]. *)
Definition key_ord (le : option value → option value → bool) (key : string)
    (direction : Z) (a b : doc) : Prop :=
  if 0 <? direction then le (a !! key) (b !! key) = true
  else le (b !! key) (a !! key) = true.

(** What the store and its driver contribute.  [fold_case] is the case
    folding of a case-insensitive match; [key_le] the comparison of sort
    keys, which on two numbers is the order of the numbers; [sort_docs] the
    store's sort, of which only this is known: its result is the input
    rearranged, in the order of the keys; [object_id] is [ObjectId(s)];
    [db_truth] the truth value of a live database handle. *)
Record Mongo := {
  fold_case : char → char;
  key_le : option value → option value → bool;
  sort_docs : string → Z → list doc → list doc;
  object_id : text → result text;
  db_truth : result bool;
  key_le_num : ∀ v w x y, num v = Some x → num w = Some y →
    key_le (Some v) (Some w) = Qle_bool x y;
  sort_perm : ∀ key dir l, sort_docs key dir l ≡ₚ l;
  sort_sorted : ∀ key dir l,
    StronglySorted (key_ord key_le key dir) (sort_docs key dir l)
}.

Abbreviation database := (gmap string (list doc)).

(** A pymongo cursor: the query, with the options set on it so far. *)
Record Cursor := {
  cur_docs : list doc;
  cur_filter : query;
  cur_sort : option (string * Z);
  cur_limit : Z
}.

Definition find (coll : list doc) (flt : query) : Cursor :=
  {| cur_docs := coll; cur_filter := flt; cur_sort := None; cur_limit := 0 |}.

Definition cursor_sort (c : Cursor) (key : string) (dir : Z) : Cursor :=
  {| cur_docs := cur_docs c; cur_filter := cur_filter c;
     cur_sort := Some (key, dir); cur_limit := cur_limit c |}.

Definition cursor_limit (c : Cursor) (n : Z) : Cursor :=
  {| cur_docs := cur_docs c; cur_filter := cur_filter c;
     cur_sort := cur_sort c; cur_limit := n |}.

(** A limit of 0 is no limit. *)
Definition take_limit (n : Z) (l : list doc) : list doc :=
  if n =? 0 then l else take (Z.to_nat (Z.abs n)) l.

Definition cond_in_model (c : cond) : bool :=
  match c with
  | RegexI q => bool_decide (is_Some (parse_pattern q))
  | _ => true
  end.

Definition clause_in_model (c : clause) : bool :=
  match c with
  | Field _ c => cond_in_model c
  | Or alts => forallb (λ a, cond_in_model a.2) alts
  end.

Definition query_in_model (flt : query) : bool := forallb clause_in_model flt.

Section Store.
Context (M : Mongo).

Definition cond_holds (c : cond) (v : option value) : bool :=
  match c with
  | RegexI q =>
      existsb (λ x, match x with
                    | VStr s => regex_search (fold_case M) q s
                    | _ => false
                    end) (candidates v)
  | Range None None => false
  | Range gte lte =>
      match gte with
      | Some lo => existsb (num_test (λ x, Qle_bool lo x)) (candidates v)
      | None => true
      end &&
      match lte with
      | Some hi => existsb (num_test (λ x, Qle_bool x hi)) (candidates v)
      | None => true
      end
  | IsStr s =>
      existsb (λ x, match x with
                    | VStr s' => bool_decide (s' = s)
                    | _ => false
                    end) (candidates v)
  | IsOid h =>
      existsb (λ x, match x with
                    | VOid h' => bool_decide (h' = h)
                    | _ => false
                    end) (candidates v)
  end.

Definition clause_holds (d : doc) (c : clause) : bool :=
  match c with
  | Field name c => cond_holds c (d !! name)
  | Or alts => existsb (λ a, cond_holds a.2 (d !! a.1)) alts
  end.

Definition doc_matches (flt : query) (d : doc) : bool :=
  forallb (clause_holds d) flt.

(** Running a cursor: select, then sort, then cut to the limit, whatever
    the order in which the options were set. *)
Definition selected (c : Cursor) : list doc :=
  let hits := List.filter (doc_matches (cur_filter c)) (cur_docs c) in
  let sorted := match cur_sort c with
                | Some (key, dir) => sort_docs M key dir hits
                | None => hits
                end in
  take_limit (cur_limit c) sorted.

Definition fetch (c : Cursor) : result (list doc) :=
  if query_in_model (cur_filter c) then Ok (selected c) else Err OutsideModel.

Definition find_one (coll : list doc) (flt : query) : result (option doc) :=
  if query_in_model flt then Ok (head (List.filter (doc_matches flt) coll))
  else Err OutsideModel.
End Store.

(** ** The handlers of [main.py] *)

(** [db[name]]; a collection that does not exist yet is empty. *)
Definition collection (db : database) (name : string) : list doc :=
  default [] (db !! name).

Definition dict_truthy (d : doc) : bool :=
  match map_to_list d with
  | [] => false
  | _ => true
  end.

Definition str_truthy (s : string) : bool :=
  match s with
  | EmptyString => false
  | _ => true
  end.

(** The filter of [get_products]. *)
Definition build_filter (q category : option text) (min_price max_price : option Q)
    : query :=
  match nonempty q with
  | Some q' => [Or [("title", RegexI q'); ("description", RegexI q');
                    ("tags", RegexI q')]]
  | None => []
  end ++
  match nonempty category with
  | Some c => [Field "category" (IsStr c)]
  | None => []
  end ++
  match min_price, max_price with
  | None, None => []
  | _, _ => [Field "price" (Range min_price max_price)]
  end.

(** The sort key and direction of [get_products]. *)
Definition resolve_sort (sort : option text) : option string * Z :=
  if bool_decide (sort = Some (txt "price_asc")) then (Some "price", 1)
  else if bool_decide (sort = Some (txt "price_desc")) then (Some "price", -1)
  else if bool_decide (sort = Some (txt "rating")) then (Some "rating", -1)
  else (Some "reviews_count", -1).

Section Handlers.
Context (P : PyRuntime) (M : Mongo).

Definition get_categories (db : option database) : result (list CategoryOut) :=
  items ← match db with
          | None => Ok []
          | Some h =>
              t ← db_truth M;
              if t : bool then fetch M (find (collection h "category") [])
              else Ok []
          end;
  comprehension (project_category P) items.

(** The cursor [get_products] iterates over. *)
Definition products_cursor (h : database) (q category : option text)
    (min_price max_price : option Q) (sort : option text) (limit : Z) : Cursor :=
  let flt := build_filter q category min_price max_price in
  let '(sort_key, sort_dir) := resolve_sort sort in
  let cursor := find (collection h "product") flt in
  let cursor := match sort_key with
                | Some k => if str_truthy k then cursor_sort cursor k sort_dir
                            else cursor
                | None => cursor
                end in
  cursor_limit cursor limit.

Definition get_products (db : option database) (q category : option text)
    (min_price max_price : option Q) (sort : option text) (limit : Z)
    : result (list ProductOut) :=
  match db with
  | None => Ok []
  | Some h =>
      docs ← fetch M (products_cursor h q category min_price max_price sort limit);
      comprehension (project_product P) docs
  end.

Definition get_product (db : option database) (product_id : text)
    : result (option ProductOut) :=
  match db with
  | None => Ok None
  | Some h =>
      try_except
        (oid ← object_id M product_id;
         found ← find_one M (collection h "product") [Field "_id" (IsOid oid)];
         match found with
         | Some d => if dict_truthy d
                     then r ← project_product P d; Ok (Some r)
                     else Ok None
         | None => Ok None
         end)
        None
  end.

(** The query parameters of [GET /api/products] as the request carries
    them; a parameter that is not given is [None]. *)
Record ProductsRequest := {
  r_q : option text;
  r_category : option text;
  r_min_price : option Q;
  r_max_price : option Q;
  r_sort : option text;
  r_limit : option Z
}.

(** The limit of a request: 24 unless one is given. *)
Definition limit_of (r : ProductsRequest) : Z := default 24 (r_limit r).

(** The bounds declared in the signature ([ge=0], [ge=1, le=100]), with
    the declared defaults; the names of the parameters that break them. *)
Definition request_errors (r : ProductsRequest) : list string :=
  match r_min_price r with
  | Some x => if Qle_bool 0 x then [] else ["min_price"]
  | None => []
  end ++
  match r_max_price r with
  | Some x => if Qle_bool 0 x then [] else ["max_price"]
  | None => []
  end ++
  (let l := default 24 (r_limit r) in
   if (1 <=? l) && (l <=? 100) then [] else ["limit"]).

(** The operations as a caller of the API sees them: the parameters are
    checked and defaulted, then the handler runs. *)
Definition listProducts (db : option database) (r : ProductsRequest)
    : result (list ProductOut) :=
  match request_errors r with
  | [] => get_products db (r_q r) (r_category r) (r_min_price r) (r_max_price r)
            (Some (default (txt "popularity") (r_sort r)))
            (default 24 (r_limit r))
  | errs => Err (RequestValidationError errs)
  end.

Definition getProduct (db : option database) (product_id : text)
    : result (option ProductOut) :=
  get_product db product_id.

End Handlers.

(** ** The demo catalogue of [_ensure_seed], as stored *)

Definition strs (l : list string) : value := VArr ((λ s, VStr (txt s)) <$> l).

Definition seed_product (hex title description : string) (price : Z)
    (category brand : string) (rating : Q) (reviews_count : Z)
    (image : string) (colors sizes : list string) (discount_percent : Z)
    (tags : list string) : doc :=
  list_to_map
    [("_id", VOid (txt hex)); ("title", VStr (txt title));
     ("description", VStr (txt description)); ("price", VInt price);
     ("category", VStr (txt category)); ("brand", VStr (txt brand));
     ("rating", VDouble rating); ("reviews_count", VInt reviews_count);
     ("images", strs [image]); ("colors", strs colors); ("sizes", strs sizes);
     ("in_stock", VBool true); ("discount_percent", VInt discount_percent);
     ("tags", strs tags)].

Definition sneakers : doc :=
  seed_product "65f0a1b2c3d4e5f6a7b8c9d0" "Кроссовки AirFlex X"
    "Лёгкие, дышащие, для бега и прогулок" 5999 "Обувь" "AirFlex" (47 # 10) 321
    "https://images.unsplash.com/photo-1608231387042-66d1773070a5"
    ["Белый"; "Черный"; "Серый"] ["38"; "39"; "40"; "41"; "42"; "43"] 20
    ["кроссовки"; "спорт"].

Definition tshirt : doc :=
  seed_product "65f0a1b2c3d4e5f6a7b8c9d1" "Футболка Basic Cotton"
    "100% хлопок, унисекс" 899 "Одежда" "Cotty" (46 # 10) 1542
    "https://images.unsplash.com/photo-1541099649105-f69ad21f3246"
    ["Белый"; "Черный"; "Синий"] ["S"; "M"; "L"; "XL"] 10
    ["футболка"; "одежда"].

Definition headphones : doc :=
  seed_product "65f0a1b2c3d4e5f6a7b8c9d2" "Наушники Sonic Pro"
    "Шумоподавление, до 40ч работы" 7990 "Электроника" "Sonic" (48 # 10) 2134
    "https://images.unsplash.com/photo-1518443895914-05b7b8ad8b3e"
    ["Черный"] [] 15 ["наушники"; "аудио"].

Definition vacuum : doc :=
  seed_product "65f0a1b2c3d4e5f6a7b8c9d3" "Робот-пылесос CleanMax"
    "Лидар, влажная уборка, управление из приложения" 19990 "Дом и дача"
    "CleanMax" (45 # 10) 624
    "https://images.unsplash.com/photo-1581578731548-c64695cc6952"
    ["Белый"] [] 30 ["уборка"; "робот"].

Definition seed_products : list doc := [sneakers; tshirt; headphones; vacuum].

Definition seed_db : database := {[ "product" := seed_products ]}.


(** Variants of the demo documents: one stored without a title, one without
    a rating, and one that holds the required fields only, next to a field
    the public schema does not know. *)
Definition untitled : doc := delete "title" tshirt.

Definition unrated : doc := delete "rating" sneakers.

Definition bare : doc :=
  list_to_map
    [("_id", VOid (txt "65f0a1b2c3d4e5f6a7b8c9d4")); ("title", VStr (txt "Mug"));
     ("price", VInt 350); ("category", VStr (txt "Home"));
     ("rating", VDouble (41 # 10)); ("reviews_count", VInt 7);
     ("warehouse", VStr (txt "A7"))].

Definition flawed_db : database :=
  {[ "product" := [sneakers; untitled; headphones] ]}.





Definition priceless : doc := delete "price" sneakers.

(** A request with no parameter but the two price bounds. *)
Definition price_request (min_price max_price : option Q) : ProductsRequest :=
  {| r_q := None; r_category := None; r_min_price := min_price;
     r_max_price := max_price; r_sort := None; r_limit := None |}.

(** The titles of a response, for reading off examples. *)
Definition titles (r : result (list ProductOut)) : option (list text) :=
  match r with
  | Ok items => Some (p_title <$> items)
  | Err _ => None
  end.

(** ** Notions the statements below are phrased in *)

(** [s] contains [q] as a substring, case put aside: some run of
    consecutive characters of [s] is [q] once both are case folded. *)
Definition contains_ci (fold : char → char) (q s : text) : Prop :=
  ∃ pre mid post, s = pre ++ mid ++ post ∧ fold <$> mid = fold <$> q.

(** No character of [q] is a metacharacter of regular expressions. *)
Definition plain (q : text) : Prop := Forall (λ c, c ∉ metachars) q.

(** The search condition as the specification words it: the title, the
    description or some element of the tags contains [q]. *)
Definition text_hit (fold : char → char) (q : text) (d : doc) : Prop :=
  (∃ t, d !! "title" = Some (VStr t) ∧ contains_ci fold q t)
  ∨ (∃ t, d !! "description" = Some (VStr t) ∧ contains_ci fold q t)
  ∨ (∃ l t, d !! "tags" = Some (VArr l) ∧ VStr t ∈ l ∧ contains_ci fold q t).

(** The types of the stored fields, after [class Product] of [schemas.py]. *)
Inductive ftype :=
| TStr
| TOptStr
| TFloat
| TInt
| TBool
| TStrList.

Definition is_str (v : value) : bool :=
  match v with VStr _ => true | _ => false end.

Definition has_type (t : ftype) (v : value) : bool :=
  match t, v with
  | TStr, VStr _ => true
  | TOptStr, (VStr _ | VNull) => true
  | TFloat, (VInt _ | VDouble _) => true
  | TInt, VInt _ => true
  | TBool, VBool _ => true
  | TStrList, VArr l => forallb is_str l
  | _, _ => false
  end.

Definition Product_types : list (string * ftype) :=
  [("title", TStr); ("description", TOptStr); ("price", TFloat);
   ("category", TStr); ("brand", TOptStr); ("rating", TFloat);
   ("reviews_count", TInt); ("images", TStrList); ("colors", TStrList);
   ("sizes", TStrList); ("in_stock", TBool); ("discount_percent", TFloat);
   ("tags", TStrList)].

(** Each field the document holds has the type the schema gives it. *)
Definition well_typed (d : doc) : Prop :=
  forallb (λ kt, match d !! kt.1 with
                 | Some v => has_type kt.2 v
                 | None => true
                 end) Product_types = true.

(** ** Instances of the two interfaces

    A strict pydantic (a value is accepted at its own type only, an integer
    also as a float), and two stores that differ in one thing: the order in
    which their sort leaves documents with equal keys. *)

Definition strict_str (v : value) : option text :=
  match v with VStr s => Some s | _ => None end.
Definition strict_int (v : value) : option Z :=
  match v with VInt z => Some z | _ => None end.
Definition strict_bool (v : value) : option bool :=
  match v with VBool b => Some b | _ => None end.

(** [str] of the values whose printed form is short to state; the other
    forms are not needed below. *)
Definition str_of (v : value) : text :=
  match v with
  | VOid hex => hex
  | VStr s => s
  | VNull => txt "None"
  | VBool true => txt "True"
  | VBool false => txt "False"
  | _ => txt "..."
  end.

Definition strict : PyRuntime :=
  {| py_str := str_of; as_str := strict_str; as_float := num;
     as_int := strict_int; as_bool := strict_bool;
     py_str_oid := λ _, eq_refl; as_str_ok := λ _, eq_refl;
     as_float_ok := λ _ _ H, H; as_int_ok := λ _, eq_refl;
     as_bool_ok := λ _, eq_refl |}.

(** Case folding of the Latin and the Cyrillic capitals. *)
Definition fold_letter (c : char) : char :=
  if ((65 <=? c) && (c <=? 90))%N then (c + 32)%N
  else if ((1040 <=? c) && (c <=? 1071))%N then (c + 32)%N
  else if ((1024 <=? c) && (c <=? 1039))%N then (c + 80)%N
  else c.

Definition is_hex (c : char) : bool :=
  (((48 <=? c) && (c <=? 57)) || ((97 <=? c) && (c <=? 102))
   || ((65 <=? c) && (c <=? 70)))%N.

(** [ObjectId(s)] of a 24-digit hex string; its string form is in lower
    case. *)
Definition hex_object_id (s : text) : result text :=
  if (length s =? 24)%nat && forallb is_hex s then Ok (fold_letter <$> s)
  else Err InvalidId.

(** Comparison of sort keys: first by the kind of value, and two numbers by
    their value.  Two other keys of one kind count as equal here. *)
Definition bracket (v : option value) : Z * Q :=
  match v with
  | None | Some VNull => (1, 0%Q)
  | Some (VInt z) => (2, inject_Z z)
  | Some (VDouble x) => (2, x)
  | Some (VStr _) => (3, 0%Q)
  | Some (VArr _) => (5, 0%Q)
  | Some (VOid _) => (8, 0%Q)
  | Some (VBool _) => (9, 0%Q)
  end.

Definition bson_le (a b : option value) : bool :=
  ((bracket a).1 <? (bracket b).1)
  || (((bracket a).1 =? (bracket b).1) && Qle_bool (bracket a).2 (bracket b).2).

Definition doc_le (key : string) (dir : Z) (a b : doc) : bool :=
  if 0 <? dir then bson_le (a !! key) (b !! key)
  else bson_le (b !! key) (a !! key).

Section InsertionSort.
Context {A : Type} (le : A → A → bool).

Fixpoint insert_sorted (x : A) (l : list A) : list A :=
  match l with
  | [] => [x]
  | y :: l' => if le x y then x :: l else y :: insert_sorted x l'
  end.

(** Each element goes in front of the first one it is not above, so
    elements with equal keys keep the order they came in. *)
Definition insertion_sort (l : list A) : list A := foldr insert_sorted [] l.
End InsertionSort.

Definition stable_sort (key : string) (dir : Z) (l : list doc) : list doc :=
  insertion_sort (doc_le key dir) l.


(** *** The sorts meet the store's contract *)

Section InsertionSortFacts.
Context {A : Type} (le : A → A → bool).
Hypothesis le_total : ∀ x y, le x y = true ∨ le y x = true.
Hypothesis le_trans : ∀ x y z, le x y = true → le y z = true → le x z = true.

Lemma insert_sorted_perm x l : insert_sorted le x l ≡ₚ x :: l.
Proof.
  induction l as [|y l IH]; simpl; [done|].
  destruct (le x y); [done|].
  rewrite IH. apply Permutation_swap.
Qed.

Lemma insertion_sort_perm l : insertion_sort le l ≡ₚ l.
Proof.
  induction l as [|x l IH]; simpl; [done|].
  rewrite insert_sorted_perm. by rewrite IH.
Qed.

Lemma insert_sorted_sorted x l :
  StronglySorted (λ a b, le a b = true) l →
  StronglySorted (λ a b, le a b = true) (insert_sorted le x l).
Proof using le_total le_trans.
  induction 1 as [|y l Hs IH Hy]; simpl.
  - repeat constructor.
  - destruct (le x y) eqn:Hxy.
    + constructor; [by constructor|].
      constructor; [done|].
      eapply Forall_impl; [exact Hy|]. intros z Hz. by eapply le_trans.
    + constructor; [done|].
      rewrite insert_sorted_perm. constructor; [|done].
      destruct (le_total x y) as [Hc|Hc]; [congruence|done].
Qed.

Lemma insertion_sort_sorted l :
  StronglySorted (λ a b, le a b = true) (insertion_sort le l).
Proof using le_total le_trans.
  induction l as [|x l IH]; simpl; [constructor|].
  by apply insert_sorted_sorted.
Qed.
End InsertionSortFacts.

Lemma bson_le_total a b : bson_le a b = true ∨ bson_le b a = true.
Proof.
  unfold bson_le.
  destruct (Z.lt_trichotomy (bracket a).1 (bracket b).1) as [H|[H|H]].
  - left. apply orb_true_iff. left. by apply Z.ltb_lt.
  - rewrite H, Z.eqb_refl. simpl.
    destruct (Qlt_le_dec (bracket b).2 (bracket a).2) as [Hq|Hq].
    + right. apply orb_true_iff. right. apply Qle_bool_iff.
      by apply Qlt_le_weak.
    + left. apply orb_true_iff. right. by apply Qle_bool_iff.
  - right. apply orb_true_iff. left. by apply Z.ltb_lt.
Qed.

Lemma bson_le_trans a b c :
  bson_le a b = true → bson_le b c = true → bson_le a c = true.
Proof.
  unfold bson_le. rewrite !orb_true_iff, !andb_true_iff.
  rewrite !Z.ltb_lt, !Z.eqb_eq, !Qle_bool_iff.
  intros [H1|[H1 Q1]] [H2|[H2 Q2]].
  - left. lia.
  - left. lia.
  - left. lia.
  - right. split; [lia|]. by eapply Qle_trans.
Qed.

Lemma doc_le_total key dir a b :
  doc_le key dir a b = true ∨ doc_le key dir b a = true.
Proof. unfold doc_le. destruct (0 <? dir); apply bson_le_total. Qed.

Lemma doc_le_trans key dir a b c :
  doc_le key dir a b = true → doc_le key dir b c = true →
  doc_le key dir a c = true.
Proof.
  unfold doc_le. destruct (0 <? dir); intros H1 H2;
    eauto using bson_le_trans.
Qed.

Lemma key_ord_doc_le key dir a b :
  key_ord bson_le key dir a b ↔ doc_le key dir a b = true.
Proof. unfold key_ord, doc_le. by destruct (0 <? dir). Qed.

Lemma bson_le_num v w x y :
  num v = Some x → num w = Some y → bson_le (Some v) (Some w) = Qle_bool x y.
Proof.
  unfold bson_le.
  destruct v, w; simpl; intros Hx Hy; simplify_eq; done.
Qed.

Lemma sorted_key_ord key dir l :
  StronglySorted (λ a b, doc_le key dir a b = true) l →
  StronglySorted (key_ord bson_le key dir) l.
Proof.
  induction 1 as [|x l Hs IH Hx]; constructor; [done|].
  eapply Forall_impl; [exact Hx|]. intros y Hy. by apply key_ord_doc_le.
Qed.

Lemma stable_sort_sorted key dir l :
  StronglySorted (key_ord bson_le key dir) (stable_sort key dir l).
Proof.
  apply sorted_key_ord, insertion_sort_sorted;
    [apply doc_le_total | apply doc_le_trans].
Qed.


Lemma stable_sort_perm key dir l : stable_sort key dir l ≡ₚ l.
Proof. apply insertion_sort_perm. Qed.


(** A store whose sort keeps documents with equal keys in store order. *)
Definition stable_store : Mongo :=
  {| fold_case := fold_letter; key_le := bson_le; sort_docs := stable_sort;
     object_id := hex_object_id; db_truth := Err NotImplementedError;
     key_le_num := bson_le_num; sort_perm := stable_sort_perm;
     sort_sorted := stable_sort_sorted |}.


(** A store whose handle counts as true. *)
Definition live_store : Mongo :=
  {| fold_case := fold_letter; key_le := bson_le; sort_docs := stable_sort;
     object_id := hex_object_id; db_truth := Ok true;
     key_le_num := bson_le_num; sort_perm := stable_sort_perm;
     sort_sorted := stable_sort_sorted |}.

(** ** The health report of [test_database]

    The handler looks at the handle from another side: its name, when it has
    one, and the answer to [list_collection_names], which is a list of names
    or an exception with a message.  The response is a dict with six fixed
    keys, updated in place; it is a record here, with one update function
    per key the handler assigns.  Reading the name and the environment does
    not raise, so the outer handler of the source has nothing to catch. *)
Inductive outcome (A : Type) :=
| Returns (a : A)
| Raises (message : text).
Arguments Returns {A} a.
Arguments Raises {A} message.

Record Handle := {
  handle_name : option text;
  list_collection_names : outcome (list text)
}.

Record HealthReport := {
  t_backend : text;
  t_database : text;
  t_database_url : option text;
  t_database_name : option text;
  t_connection_status : text;
  t_collections : list text
}.

Definition set_database (s : text) (r : HealthReport) : HealthReport :=
  {| t_backend := t_backend r; t_database := s;
     t_database_url := t_database_url r; t_database_name := t_database_name r;
     t_connection_status := t_connection_status r;
     t_collections := t_collections r |}.

Definition set_database_url (s : option text) (r : HealthReport) : HealthReport :=
  {| t_backend := t_backend r; t_database := t_database r;
     t_database_url := s; t_database_name := t_database_name r;
     t_connection_status := t_connection_status r;
     t_collections := t_collections r |}.

Definition set_database_name (s : option text) (r : HealthReport) : HealthReport :=
  {| t_backend := t_backend r; t_database := t_database r;
     t_database_url := t_database_url r; t_database_name := s;
     t_connection_status := t_connection_status r;
     t_collections := t_collections r |}.

Definition set_connection_status (s : text) (r : HealthReport) : HealthReport :=
  {| t_backend := t_backend r; t_database := t_database r;
     t_database_url := t_database_url r; t_database_name := t_database_name r;
     t_connection_status := s; t_collections := t_collections r |}.

Definition set_collections (l : list text) (r : HealthReport) : HealthReport :=
  {| t_backend := t_backend r; t_database := t_database r;
     t_database_url := t_database_url r; t_database_name := t_database_name r;
     t_connection_status := t_connection_status r; t_collections := l |}.

Definition initial_report : HealthReport :=
  {| t_backend := txt "✅ Running"; t_database := txt "❌ Not Available";
     t_database_url := None; t_database_name := None;
     t_connection_status := txt "Not Connected"; t_collections := [] |}.

(** [test_database], given the handle and the value of [DATABASE_URL]. *)
Definition test_database (db : option Handle) (DATABASE_URL : option text)
    : HealthReport :=
  let response := initial_report in
  match db with
  | Some h =>
      let response := set_database (txt "✅ Available") response in
      let response :=
        set_database_name (Some (default (txt "unknown") (handle_name h)))
          response in
      let response :=
        set_database_url
          (Some (match nonempty DATABASE_URL with
                 | Some _ => txt "✅ Set"
                 | None => txt "❌ Not Set"
                 end)) response in
      let response := set_connection_status (txt "Connected") response in
      match list_collection_names h with
      | Returns collections =>
          let response := set_collections (take 10 collections) response in
          set_database (txt "✅ Connected & Working") response
      | Raises e =>
          set_database (txt "⚠️ Connected but Error: " ++ take 80 e) response
      end
  | None => set_database (txt "⚠️ Available but not initialized") response
  end.

(** ** Seeding: [_ensure_seed] *)

Definition category_payload (name slug icon : string) : doc :=
  list_to_map
    [("name", VStr (txt name)); ("slug", VStr (txt slug));
     ("icon", VStr (txt icon))].

Definition categories : list doc :=
  [category_payload "Одежда" "clothes" "Shirt";
   category_payload "Обувь" "shoes" "Shoe";
   category_payload "Электроника" "electronics" "Smartphone";
   category_payload "Дом и дача" "home" "Home";
   category_payload "Красота" "beauty" "Sparkles";
   category_payload "Спорт" "sport" "Dumbbell"].

Definition product_payload (title description : string) (price : Z)
    (category brand : string) (rating : Q) (reviews_count : Z)
    (image : string) (colors sizes : list string) (discount_percent : Z)
    (tags : list string) : doc :=
  list_to_map
    [("title", VStr (txt title)); ("description", VStr (txt description));
     ("price", VInt price); ("category", VStr (txt category));
     ("brand", VStr (txt brand)); ("rating", VDouble rating);
     ("reviews_count", VInt reviews_count); ("images", strs [image]);
     ("colors", strs colors); ("sizes", strs sizes); ("in_stock", VBool true);
     ("discount_percent", VInt discount_percent); ("tags", strs tags)].

Definition demo_products : list doc :=
  ((λ i : Z,
      product_payload "Кроссовки AirFlex X"
        "Лёгкие, дышащие, для бега и прогулок" 5999
        (if i =? -1 then "Электроника" else "Обувь") "AirFlex" (47 # 10) 321
        "https://images.unsplash.com/photo-1608231387042-66d1773070a5?q=80&w=1200&auto=format&fit=crop"
        ["Белый"; "Черный"; "Серый"] ["38"; "39"; "40"; "41"; "42"; "43"] 20
        ["кроссовки"; "спорт"]) <$> [0])
  ++ [product_payload "Футболка Basic Cotton" "100% хлопок, унисекс" 899
        "Одежда" "Cotty" (46 # 10) 1542
        "https://images.unsplash.com/photo-1541099649105-f69ad21f3246?q=80&w=1200&auto=format&fit=crop"
        ["Белый"; "Черный"; "Синий"] ["S"; "M"; "L"; "XL"] 10
        ["футболка"; "одежда"];
      product_payload "Наушники Sonic Pro" "Шумоподавление, до 40ч работы" 7990
        "Электроника" "Sonic" (48 # 10) 2134
        "https://images.unsplash.com/photo-1518443895914-05b7b8ad8b3e?q=80&w=1200&auto=format&fit=crop"
        ["Черный"] [] 15 ["наушники"; "аудио"];
      product_payload "Робот-пылесос CleanMax"
        "Лидар, влажная уборка, управление из приложения" 19990 "Дом и дача"
        "CleanMax" (45 # 10) 624
        "https://images.unsplash.com/photo-1581578731548-c64695cc6952?q=80&w=1200&auto=format&fit=crop"
        ["Белый"] [] 30 ["уборка"; "робот"]].

Section Seeding.
(** The ObjectId the store gives the document it inserts at a position of a
    collection. *)
Context (new_id : nat → text).

(** [insert_many]: the documents go to the end of the collection, each
    with an [_id] of the store's unless it brings one. *)
Definition insert_many (coll docs : list doc) : list doc :=
  coll ++ imap (λ i d, match d !! "_id" with
                       | Some _ => d
                       | None => <["_id" := VOid (new_id (length coll + i))]> d
                       end) docs.

(** [name not in db.list_collection_names() or
    db[name].count_documents({}) == 0] *)
Definition missing_or_empty (h : database) (name : string) : bool :=
  bool_decide (name ∉ dom h) || (length (collection h name) =? 0)%nat.

Definition seed_collection (h : database) (name : string) (docs : list doc)
    : database :=
  if missing_or_empty h name
  then if (length docs =? 0)%nat then h
       else <[name := insert_many (collection h name) docs]> h
  else h.

Definition _ensure_seed (db : option database) : option database :=
  match db with
  | None => None
  | Some h =>
      let h := seed_collection h "category" categories in
      let h := seed_collection h "product" demo_products in
      Some h
  end.
End Seeding.

(** Identifiers for examples: the position, as 24 hex digits. *)
Definition hex_digit (n : nat) : char :=
  if (n <? 10)%nat then N.of_nat (48 + n) else N.of_nat (87 + n).

Definition counter_id (n : nat) : text :=
  replicate 22 48%N ++ [hex_digit (n `div` 16); hex_digit (n `mod` 16)].

(** A stored category, and a store that holds it. *)
Definition shoes_category : doc :=
  <["_id" := VOid (txt "65f0a1b2c3d4e5f6a7b8c9c1")]>
    (category_payload "Обувь" "shoes" "Shoe").

Definition category_db : database := {[ "category" := [shoes_category] ]}.

(** What makes a payload of the seed servable once the store has given it
    an identifier: it brings none of its own, its fields have the types of
    the stored schema, and it holds the fields projection requires. *)
Definition seedable (d : doc) : Prop :=
  d !! "_id" = None ∧ well_typed d
  ∧ is_Some (d !! "title") ∧ is_Some (d !! "price")
  ∧ is_Some (d !! "category") ∧ is_Some (d !! "rating")
  ∧ is_Some (d !! "reviews_count").

Definition category_seedable (d : doc) : Prop :=
  d !! "_id" = None
  ∧ ∃ n s i, d !! "name" = Some (VStr n) ∧ d !! "slug" = Some (VStr s)
             ∧ d !! "icon" = Some (VStr i).

(** * Properties *)

(** ** The exception monad and comprehensions *)

Lemma bind_Ok {A B} (m : result A) (k : A → result B) (b : B) :
  m ≫= k = Ok b ↔ ∃ a, m = Ok a ∧ k a = Ok b.
Proof.
  destruct m as [a|e]; simpl; split.
  - intros H. by exists a.
  - by intros (a' & [= ->] & H).
  - done.
  - by intros (a' & [=] & _).
Qed.

Lemma bind_Err {A B} (m : result A) (k : A → result B) (e : exn) :
  m ≫= k = Err e ↔ m = Err e ∨ ∃ a, m = Ok a ∧ k a = Err e.
Proof.
  destruct m as [a|e']; simpl; split.
  - intros H. right. by exists a.
  - by intros [[=]|(a' & [= ->] & H)].
  - intros [= ->]. by left.
  - by intros [[= ->]|(a' & [=] & _)].
Qed.

(** Destructs the computations a sequence of binds runs, first to last. *)
Ltac run_binds :=
  repeat match goal with
         | |- context [mbind _ ?m] => destruct m eqn:?; simpl
         | H : context [mbind _ ?m] |- _ => destruct m eqn:?; simpl in H
         end.

Section Comprehension.
Context {A B : Type} (f : A → result B).

Lemma comprehension_Ok l rs :
  comprehension f l = Ok rs ↔ Forall2 (λ a b, f a = Ok b) l rs.
Proof.
  revert rs. induction l as [|a l IH]; intros rs; simpl.
  - split; [intros [= <-]; constructor | by inversion 1].
  - rewrite bind_Ok. split.
    + intros (b & Hb & H). apply bind_Ok in H as (bs & Hbs & [= <-]).
      constructor; [done|]. by apply IH.
    + inversion 1 as [|? b ? bs Hb Hbs]; subst. exists b. split; [done|].
      apply bind_Ok. exists bs. split; [by apply IH|done].
Qed.

Lemma comprehension_Err l e :
  comprehension f l = Err e → ∃ a, a ∈ l ∧ f a = Err e.
Proof.
  induction l as [|a l IH]; simpl; [done|].
  destruct (f a) as [b|e'] eqn:Hfa; simpl.
  - destruct (comprehension f l) as [bs|e'']; simpl; [done|].
    intros [= ->]. destruct IH as (a' & Hin & Ha'); [done|].
    exists a'. split; [by right|done].
  - intros [= ->]. exists a. split; [by left|done].
Qed.

Lemma comprehension_total l :
  (∃ rs, comprehension f l = Ok rs) ∨ (∃ e, comprehension f l = Err e).
Proof. destruct (comprehension f l); eauto. Qed.

Lemma comprehension_length l rs :
  comprehension f l = Ok rs → length rs = length l.
Proof. rewrite comprehension_Ok. intros H. symmetry. by eapply Forall2_length. Qed.
End Comprehension.

(** ** Projection *)

Lemma required_Err {A} (g : value → option A) kw k e :
  required g kw k = Err e → e = ValidationError.
Proof. unfold required. repeat case_match; congruence. Qed.

Lemma defaulted_Err {A} (g : value → option A) dflt kw k e :
  defaulted g dflt kw k = Err e → e = ValidationError.
Proof. unfold defaulted. repeat case_match; congruence. Qed.

Lemma ProductOut_new_Err P kw e :
  ProductOut_new P kw = Err e → e = ValidationError.
Proof.
  unfold ProductOut_new. intros H. run_binds;
    try discriminate;
    simplify_eq;
    eauto using @required_Err, @defaulted_Err.
Qed.

Lemma project_product_Err P d e :
  project_product P d = Err e → e = ValidationError.
Proof. apply ProductOut_new_Err. Qed.

(** ** The listing handler, unfolded *)

Section Listing.
Context (P : PyRuntime) (M : Mongo).

Lemma get_products_live h q category min_price max_price sort limit docs :
  fetch M (products_cursor h q category min_price max_price sort limit) = Ok docs →
  get_products P M (Some h) q category min_price max_price sort limit
  = comprehension (project_product P) docs.
Proof. unfold get_products. by intros ->. Qed.

(** C1 (as amended): the listing handler projects the documents the cursor
    yields in one comprehension, without any handler around a single
    projection.  So the response is the projection of every one of these
    documents, in their order, when all of them project; and as soon as one
    of them fails projection the whole request fails with that validation
    error: no document is skipped. *)
Theorem get_products_all_or_nothing h q category min_price max_price sort limit docs :
  fetch M (products_cursor h q category min_price max_price sort limit) = Ok docs →
  (∀ items,
     get_products P M (Some h) q category min_price max_price sort limit = Ok items
     ↔ Forall2 (λ d r, project_product P d = Ok r) docs items)
  ∧ (get_products P M (Some h) q category min_price max_price sort limit
     = Err ValidationError
     ↔ ∃ d, d ∈ docs ∧ ∀ r, project_product P d ≠ Ok r).
Proof.
  intros Hfetch. rewrite (get_products_live _ _ _ _ _ _ _ _ Hfetch). split.
  - intros items. apply comprehension_Ok.
  - split.
    + intros Herr. apply comprehension_Err in Herr as (d & Hin & Hd).
      exists d. split; [done|]. intros r. by rewrite Hd.
    + intros (d & Hin & Hd).
      destruct (comprehension_total (project_product P) docs)
        as [[rs Hrs]|[e He]].
      * apply comprehension_Ok in Hrs.
        apply list_elem_of_lookup in Hin as [i Hi].
        destruct (Forall2_lookup_l _ _ _ _ _ Hrs Hi) as (r & _ & Hr).
        by destruct (Hd r).
      * rewrite He. f_equal.
        apply comprehension_Err in He as (d' & _ & Hd').
        by eapply project_product_Err.
Qed.
End Listing.

(** ** Projection of one document *)

Section Projection.
Context (P : PyRuntime).

Lemma to_id_str_lookup d j :
  j ≠ "_id" → j ≠ "id" → _to_id_str P d !! j = d !! j.
Proof.
  intros H1 H2. unfold _to_id_str.
  destruct (d !! "_id") as [v|]; [|done].
  destruct (truthy v); [|done].
  by rewrite lookup_insert_ne, lookup_delete_ne.
Qed.

Lemma to_id_str_id d hex :
  d !! "_id" = Some (VOid hex) → _to_id_str P d !! "id" = Some (VStr hex).
Proof.
  intros H. unfold _to_id_str. rewrite H. simpl.
  by rewrite lookup_insert_eq, py_str_oid.
Qed.

Lemma to_id_str_insert d k v j :
  k ≠ "_id" → k ≠ j →
  _to_id_str P (<[k:=v]> d) !! j = _to_id_str P d !! j.
Proof.
  intros H1 H2. unfold _to_id_str.
  rewrite (lookup_insert_ne d k "_id") by done.
  destruct (d !! "_id") as [w|].
  - destruct (truthy w).
    + destruct (decide (j = "id")) as [->|Hj].
      * by rewrite !lookup_insert_eq.
      * rewrite !(lookup_insert_ne _ "id") by done.
        destruct (decide (j = "_id")) as [->|Hj'].
        -- by rewrite !lookup_delete_eq.
        -- rewrite !lookup_delete_ne by done. by rewrite lookup_insert_ne.
    + by rewrite lookup_insert_ne.
  - by rewrite lookup_insert_ne.
Qed.

Lemma ProductOut_new_ext kw kw' :
  (∀ j, j ∈ ProductOut_fields → kw !! j = kw' !! j) →
  ProductOut_new P kw = ProductOut_new P kw'.
Proof.
  intros H. unfold ProductOut_new, required, defaulted, ProductOut_fields in *.
  rewrite !H by set_solver. done.
Qed.

Lemma required_absent {A} (g : value → option A) kw k :
  kw !! k = None → required g kw k = Err ValidationError.
Proof. unfold required. by intros ->. Qed.

Lemma defaulted_absent {A} (g : value → option A) dflt kw k :
  kw !! k = None → defaulted g dflt kw k = Ok dflt.
Proof. unfold defaulted. by intros ->. Qed.

Lemma required_present {A} (g : value → option A) kw k v a :
  kw !! k = Some v → g v = Some a → required g kw k = Ok a.
Proof. unfold required. by intros -> ->. Qed.

(** Rewrites the lookups of the copied document to lookups of the stored
    one, at a field other than the identifier. *)
Ltac stored_lookups :=
  repeat match goal with
         | H : context [_to_id_str P ?d !! ?k] |- _ =>
             rewrite (to_id_str_lookup d k) in H by done
         | |- context [_to_id_str P ?d !! ?k] =>
             rewrite (to_id_str_lookup d k) by done
         end.

(** C2 (as amended): the public schema [ProductOut] declares a default for
    description and brand (none), images, colors, sizes and tags (empty),
    in_stock (true) and discount_percent (0), and projection fills these
    when the stored document lacks the field.  It declares no default for
    rating and reviews_count: a document lacking either fails projection.
    A field of the document that the schema does not name never changes the
    result, and a document that holds just an ObjectId, a title, a price, a
    category, a rating and a review count projects to the record with these
    and the defaults. *)
Theorem projection_defaults (d : doc) :
  (∀ r, project_product P d = Ok r →
     (d !! "description" = None → p_description r = None)
     ∧ (d !! "brand" = None → p_brand r = None)
     ∧ (d !! "images" = None → p_images r = [])
     ∧ (d !! "colors" = None → p_colors r = [])
     ∧ (d !! "sizes" = None → p_sizes r = [])
     ∧ (d !! "in_stock" = None → p_in_stock r = true)
     ∧ (d !! "discount_percent" = None → p_discount_percent r = 0%Q)
     ∧ (d !! "tags" = None → p_tags r = []))
  ∧ (d !! "rating" = None ∨ d !! "reviews_count" = None →
     project_product P d = Err ValidationError)
  ∧ (∀ k v, k ∉ "_id" :: ProductOut_fields →
     project_product P (<[k:=v]> d) = project_product P d)
  ∧ (∀ hex t p c x n,
     d !! "_id" = Some (VOid hex) → d !! "title" = Some (VStr t) →
     (∃ v, d !! "price" = Some v ∧ num v = Some p) →
     d !! "category" = Some (VStr c) →
     (∃ v, d !! "rating" = Some v ∧ num v = Some x) →
     d !! "reviews_count" = Some (VInt n) →
     Forall (λ k, d !! k = None)
       ["description"; "brand"; "images"; "colors"; "sizes"; "in_stock";
        "discount_percent"; "tags"] →
     project_product P d =
     Ok {| p_id := hex; p_title := t; p_description := None; p_price := p;
           p_category := c; p_brand := None; p_rating := x;
           p_reviews_count := n; p_images := []; p_colors := [];
           p_sizes := []; p_in_stock := true; p_discount_percent := 0%Q;
           p_tags := [] |}).
Proof.
  split; [|split; [|split]].
  - intros r Hr. unfold project_product, ProductOut_new in Hr.
    run_binds; try discriminate. simplify_eq. simpl.
    unfold defaulted in *. stored_lookups.
    repeat split; intros Hnone; rewrite Hnone in *; congruence.
  - intros Hnone.
    destruct (project_product P d) as [r|e] eqn:Hr.
    + exfalso. unfold project_product, ProductOut_new in Hr.
      run_binds; try discriminate.
      unfold required in *. stored_lookups.
      destruct Hnone as [Hnone|Hnone]; rewrite Hnone in *; discriminate.
    + f_equal. by eapply project_product_Err.
  - intros k v Hk. unfold project_product. apply ProductOut_new_ext.
    intros j Hj. apply to_id_str_insert.
    + intros ->. apply Hk. by left.
    + intros ->. apply Hk. by right.
  - intros hex t p c x n Hid Ht (vp & Hp & Hnp) Hc (vr & Hr & Hnr) Hn Habs.
    rewrite Forall_forall in Habs.
    unfold project_product, ProductOut_new.
    rewrite (required_present _ _ "id" (VStr hex) hex);
      [|by apply to_id_str_id|apply as_str_ok].
    simpl.
    rewrite (required_present _ _ "title" (VStr t) t);
      [|by stored_lookups|apply as_str_ok].
    simpl. rewrite defaulted_absent by (stored_lookups; apply Habs; set_solver).
    simpl.
    rewrite (required_present _ _ "price" vp p);
      [|by stored_lookups|by apply as_float_ok].
    simpl.
    rewrite (required_present _ _ "category" (VStr c) c);
      [|by stored_lookups|apply as_str_ok].
    simpl. rewrite defaulted_absent by (stored_lookups; apply Habs; set_solver).
    simpl.
    rewrite (required_present _ _ "rating" vr x);
      [|by stored_lookups|by apply as_float_ok].
    simpl.
    rewrite (required_present _ _ "reviews_count" (VInt n) n);
      [|by stored_lookups|apply as_int_ok].
    simpl.
    rewrite !defaulted_absent by (stored_lookups; apply Habs; set_solver).
    done.
Qed.
End Projection.

(** C1, on a catalogue whose second document has no title: the request
    fails, as one of the three documents the cursor yields does not
    project. *)
Lemma get_products_all_or_nothing_witness :
  get_products strict stable_store (Some flawed_db) None None None None
    (Some (txt "popularity")) 24 = Err ValidationError
  ↔ ∃ d, d ∈ [headphones; untitled; sneakers]
         ∧ ∀ r, project_product strict d ≠ Ok r.
Proof.
  apply (get_products_all_or_nothing strict stable_store flawed_db None None
           None None (Some (txt "popularity")) 24
           [headphones; untitled; sneakers]).
  vm_compute. reflexivity.
Defined.

(** C1, the claim fails: the second of three matching documents has no
    title; the other two project, and still the response is not their two
    records but the validation error. *)
Lemma get_products_does_not_skip :
  (∃ r, project_product strict sneakers = Ok r)
  ∧ project_product strict untitled = Err ValidationError
  ∧ (∃ r, project_product strict headphones = Ok r)
  ∧ get_products strict stable_store (Some flawed_db) None None None None
      (Some (txt "popularity")) 24 = Err ValidationError.
Proof.
  split; [eexists; vm_compute; reflexivity|].
  split; [vm_compute; reflexivity|].
  split; [eexists; vm_compute; reflexivity|].
  vm_compute. reflexivity.
Qed.

(** C2, a document with the required fields only and an unknown field. *)
Lemma projection_defaults_witness :
  project_product strict bare =
  Ok {| p_id := txt "65f0a1b2c3d4e5f6a7b8c9d4"; p_title := txt "Mug";
        p_description := None; p_price := 350%Q; p_category := txt "Home";
        p_brand := None; p_rating := (41 # 10)%Q; p_reviews_count := 7;
        p_images := []; p_colors := []; p_sizes := []; p_in_stock := true;
        p_discount_percent := 0%Q; p_tags := [] |}.
Proof.
  apply (proj2 (proj2 (proj2 (projection_defaults strict bare)))).
  - vm_compute. reflexivity.
  - vm_compute. reflexivity.
  - exists (VInt 350). split; vm_compute; reflexivity.
  - vm_compute. reflexivity.
  - exists (VDouble (41 # 10)). split; vm_compute; reflexivity.
  - vm_compute. reflexivity.
  - repeat constructor.
Defined.

(** C2, the claim fails: a stored product without a rating is not given the
    rating 4.5; its projection fails.  (The default 4.5 is the one of the
    stored schema [Product], which projection does not use.) *)
Lemma missing_rating_is_not_defaulted :
  unrated !! "rating" = None
  ∧ project_product strict unrated = Err ValidationError
  ∧ (s_rating <$> option_of (Product_new strict unrated)) = Some (9 # 2)%Q.
Proof. repeat split; vm_compute; reflexivity. Qed.

(** ** Search: the regular expression of a plain string *)

Section PlainPatterns.
Context (fold : char → char).

Lemma parse_plain q : plain q → parse_pattern q = Some (Lit <$> q).
Proof.
  unfold parse_pattern. induction 1 as [|c q Hc Hq IH]; [done|].
  simpl. rewrite IH. unfold parse_atom.
  rewrite (bool_decide_eq_false_2 (c ∈ metachars)) by done.
  rewrite bool_decide_eq_false_2; [done|].
  intros ->. apply Hc. vm_compute. set_solver.
Qed.

Lemma match_here_lit q s :
  match_here fold (Lit <$> q) s = true
  ↔ ∃ mid post, s = mid ++ post ∧ fold <$> mid = fold <$> q.
Proof.
  revert s. induction q as [|c q IH]; intros s; simpl.
  - split; [|done]. intros _. by exists [], s.
  - destruct s as [|x s]; simpl.
    + split; [done|]. intros (mid & post & Hs & Hmid).
      symmetry in Hs. apply app_eq_nil in Hs as [-> ->]. done.
    + rewrite andb_true_iff, bool_decide_eq_true, IH. split.
      * intros (Hx & mid & post & -> & Hmid).
        exists (x :: mid), post. split; [done|].
        rewrite !fmap_cons, <- Hx. f_equal. exact Hmid.
      * intros (mid & post & Hs & Hmid).
        destruct mid as [|y mid]; [done|].
        rewrite !fmap_cons in Hmid. simplify_eq/=.
        split; [done|]. by exists mid, post.
Qed.

Lemma search_lit q s :
  search fold (Lit <$> q) s = true ↔ contains_ci fold q s.
Proof.
  unfold contains_ci. induction s as [|x s IH]; simpl.
  - rewrite orb_false_r, match_here_lit. split.
    + intros (mid & post & Hs & Hmid). by exists [], mid, post.
    + intros (pre & mid & post & Hs & Hmid).
      symmetry in Hs. apply app_eq_nil in Hs as [-> Hs]. by exists mid, post.
  - rewrite orb_true_iff, match_here_lit, IH. split.
    + intros [(mid & post & Hs & Hmid)|(pre & mid & post & Hs & Hmid)].
      * by exists [], mid, post.
      * exists (x :: pre), mid, post. by rewrite Hs.
    + intros (pre & mid & post & Hs & Hmid).
      destruct pre as [|y pre]; simpl in Hs.
      * left. by exists mid, post.
      * right. simplify_eq. by exists pre, mid, post.
Qed.

Lemma regex_search_plain q s :
  plain q → regex_search fold q s = true ↔ contains_ci fold q s.
Proof.
  intros Hq. unfold regex_search. rewrite (parse_plain q Hq). apply search_lit.
Qed.

(** A one-character string is contained where that character occurs. *)
Lemma contains_ci_char c s :
  contains_ci fold [c] s → Exists (λ x, fold x = fold c) s.
Proof.
  intros (pre & mid & post & -> & Hmid).
  destruct mid as [|x [|y mid]]; simplify_eq/=.
  apply Exists_app. right. by left.
Qed.
End PlainPatterns.

Lemma well_typed_field d k t v :
  well_typed d → (k, t) ∈ Product_types → d !! k = Some v →
  has_type t v = true.
Proof.
  unfold well_typed. rewrite forallb_forall. intros Hall Hin Hv.
  apply list_elem_of_In in Hin. specialize (Hall _ Hin). simpl in Hall.
  by rewrite Hv in Hall.
Qed.

Lemma or_iff_both (A B C D : Prop) : (A ↔ B) → (C ↔ D) → (A ∨ C ↔ B ∨ D).
Proof. tauto. Qed.

Section SearchCondition.
Context (M : Mongo).

Lemma regex_cond_plain q v :
  plain q →
  cond_holds M (RegexI q) v = true
  ↔ ∃ s, VStr s ∈ candidates v ∧ contains_ci (fold_case M) q s.
Proof.
  intros Hq. simpl. rewrite existsb_exists. split.
  - intros (x & Hin & Hx). destruct x; try done.
    exists s. split; [by apply list_elem_of_In|].
    by apply regex_search_plain.
  - intros (s & Hin & Hs). exists (VStr s).
    split; [by apply list_elem_of_In|]. by apply regex_search_plain.
Qed.

Lemma build_filter_q c q category min_price max_price :
  build_filter (Some (c :: q)) category min_price max_price
  = Or [("title", RegexI (c :: q)); ("description", RegexI (c :: q));
        ("tags", RegexI (c :: q))]
    :: build_filter None category min_price max_price.
Proof. done. Qed.

Lemma build_filter_no_q_in_model category min_price max_price :
  query_in_model (build_filter None category min_price max_price) = true.
Proof.
  unfold build_filter.
  by destruct (nonempty category), min_price, max_price.
Qed.

(** C3 (as amended): the search string is handed to the store as a regular
    expression.  When it is non-empty and none of its characters is a
    metacharacter, the documents the filter selects are exactly those whose
    title, description or some element of tags contains it as a substring,
    case put aside, and that meet the other conditions of the filter.  (A
    string with metacharacters is matched as the expression it spells:
    the dot stands for any character.) *)
Theorem search_is_substring_for_plain_q q category min_price max_price d :
  q ≠ [] → plain q → well_typed d →
  query_in_model (build_filter (Some q) category min_price max_price) = true
  ∧ (doc_matches M (build_filter (Some q) category min_price max_price) d = true
     ↔ text_hit (fold_case M) q d
       ∧ doc_matches M (build_filter None category min_price max_price) d = true).
Proof.
  intros Hne Hq Hd. destruct q as [|c q]; [done|].
  rewrite build_filter_q. split.
  - pose proof (build_filter_no_q_in_model category min_price max_price) as Hm.
    unfold query_in_model in *.
    cbn [forallb clause_in_model cond_in_model snd].
    rewrite (parse_plain _ Hq), Hm.
    by rewrite bool_decide_eq_true_2 by eauto.
  - unfold doc_matches at 1.
    change (forallb ?f (?x :: ?l)) with (f x && forallb f l).
    fold (doc_matches M (build_filter None category min_price max_price) d).
    rewrite andb_true_iff.
    apply and_iff_compat_r.
    unfold clause_holds.
    change (existsb ?f [?a; ?b; ?c']) with (f a || (f b || (f c' || false))).
    cbn [fst snd]. rewrite orb_false_r, !orb_true_iff.
    rewrite !(regex_cond_plain _ _ Hq). unfold text_hit.
    apply or_iff_both; [|apply or_iff_both].
    + split.
      * intros (s & Hin & Hs).
        destruct (d !! "title") as [v|] eqn:Hv;
          [|by apply elem_of_nil in Hin].
        pose proof (well_typed_field d "title" TStr v Hd ltac:(set_solver) Hv) as Ht.
        destruct v; try discriminate Ht.
        simpl in Hin. apply list_elem_of_singleton in Hin as [= ->]. eauto.
      * intros (t & -> & Ht). exists t. split; [by left|done].
    + split.
      * intros (s & Hin & Hs).
        destruct (d !! "description") as [v|] eqn:Hv;
          [|by apply elem_of_nil in Hin].
        pose proof (well_typed_field d "description" TOptStr v Hd ltac:(set_solver) Hv) as Ht.
        destruct v; try discriminate Ht.
        -- simpl in Hin. by apply list_elem_of_singleton in Hin.
        -- simpl in Hin. apply list_elem_of_singleton in Hin as [= ->]. eauto.
      * intros (t & -> & Ht). exists t. split; [by left|done].
    + split.
      * intros (s & Hin & Hs).
        destruct (d !! "tags") as [v|] eqn:Hv;
          [|by apply elem_of_nil in Hin].
        pose proof (well_typed_field d "tags" TStrList v Hd ltac:(set_solver) Hv) as Ht.
        destruct v; try discriminate Ht.
        simpl in Hin. eauto.
      * intros (l & t & -> & Hin & Ht). exists t. by split.
Qed.
End SearchCondition.

(** A one-character search string hits a document only if the character
    occurs, case put aside, in one of the strings searched. *)
Lemma text_hit_char fold c d :
  text_hit fold [c] d →
  existsb (λ v, match v with
                | VStr s => existsb (λ x, bool_decide (fold x = fold c)) s
                | _ => false
                end)
    (candidates (d !! "title") ++ candidates (d !! "description")
     ++ candidates (d !! "tags")) = true.
Proof.
  intros H. apply existsb_exists.
  assert (∀ s, contains_ci fold [c] s →
               existsb (λ x, bool_decide (fold x = fold c)) s = true) as Hchar.
  { intros s Hs. apply contains_ci_char, Exists_exists in Hs as (x & Hin & Hx).
    apply existsb_exists. exists x.
    split; [by apply list_elem_of_In|by apply bool_decide_eq_true]. }
  destruct H as [(t & Ht & Hc)|[(t & Ht & Hc)|(l & t & Ht & Hin & Hc)]];
    exists (VStr t); rewrite Ht; (split; [|by apply Hchar]);
    apply list_elem_of_In; simpl; set_solver.
Qed.

(** C3, plain search: the filter for "наушники" on the headphones. *)
Lemma search_is_substring_for_plain_q_witness :
  query_in_model (build_filter (Some (txt "наушники")) None None None) = true
  ∧ (doc_matches stable_store
       (build_filter (Some (txt "наушники")) None None None) headphones = true
     ↔ text_hit fold_letter (txt "наушники") headphones
       ∧ doc_matches stable_store (build_filter None None None None) headphones
         = true).
Proof.
  apply (search_is_substring_for_plain_q stable_store (txt "наушники")
           None None None headphones).
  - vm_compute. discriminate.
  - unfold plain. apply (bool_decide_unpack _). vm_compute. exact I.
  - vm_compute. reflexivity.
Defined.

(** The search for "наушники" finds the product titled "Наушники Sonic Pro"
    and none of the other three. *)
Example search_headphones :
  titles
    (get_products strict stable_store (Some seed_db) (Some (txt "наушники"))
       None None None (Some (txt "popularity")) 24)
  = Some [txt "Наушники Sonic Pro"].
Proof. vm_compute. reflexivity. Qed.

(** C3, the claim fails: no title, description or tag of the demo catalogue
    contains a dot, and the search for "." returns all four products. *)
Lemma dot_matches_every_product :
  Forall (λ d, ¬ text_hit fold_letter (txt ".") d) seed_products
  ∧ titles
      (get_products strict stable_store (Some seed_db) (Some (txt "."))
         None None None (Some (txt "popularity")) 24)
    = Some [txt "Наушники Sonic Pro"; txt "Футболка Basic Cotton";
            txt "Робот-пылесос CleanMax"; txt "Кроссовки AirFlex X"].
Proof.
  split.
  - repeat constructor; intros H; apply text_hit_char in H;
      vm_compute in H; discriminate.
  - vm_compute. reflexivity.
Qed.

(** ** Sort key resolution *)


Lemma resolve_sort_cases sort :
  resolve_sort sort = (Some "price", 1)
  ∨ resolve_sort sort = (Some "price", -1)
  ∨ resolve_sort sort = (Some "rating", -1)
  ∨ resolve_sort sort = (Some "reviews_count", -1).
Proof. unfold resolve_sort. repeat case_bool_decide; auto. Qed.

(** The cursor of the listing handler always carries a sort. *)
Lemma products_cursor_eq h q category min_price max_price sort limit :
  products_cursor h q category min_price max_price sort limit
  = {| cur_docs := collection h "product";
       cur_filter := build_filter q category min_price max_price;
       cur_sort := Some (default "" (resolve_sort sort).1, (resolve_sort sort).2);
       cur_limit := limit |}.
Proof.
  unfold products_cursor.
  by destruct (resolve_sort_cases sort) as [->|[->|[->| ->]]].
Qed.

Section SortResolution.
Context (P : PyRuntime) (M : Mongo).

End SortResolution.


(** ** What the cursor yields *)

Section Selection.
Context (M : Mongo).

Lemma take_limit_sublist n l d : d ∈ take_limit n l → d ∈ l.
Proof.
  unfold take_limit. destruct (n =? 0); [done|].
  rewrite elem_of_take. intros (i & Hi & _). by eapply list_elem_of_lookup_2.
Qed.

Lemma take_limit_length n l :
  0 < n → length (take_limit n l) = Nat.min (Z.to_nat n) (length l).
Proof.
  intros Hn. unfold take_limit.
  destruct (Z.eqb_spec n 0) as [->|_]; [lia|].
  rewrite length_take. f_equal. lia.
Qed.

Lemma selected_sound c d :
  d ∈ selected M c → d ∈ cur_docs c ∧ doc_matches M (cur_filter c) d = true.
Proof.
  unfold selected. intros Hd. apply take_limit_sublist in Hd.
  assert (d ∈ List.filter (doc_matches M (cur_filter c)) (cur_docs c)) as Hf.
  { destruct (cur_sort c) as [[key dir]|]; [|done].
    by rewrite sort_perm in Hd. }
  apply list_elem_of_In, filter_In in Hf as [Hin Hm].
  split; [by apply list_elem_of_In|done].
Qed.

(** The filter is the conjunction of its three parts. *)
Lemma build_filter_split q category min_price max_price d :
  doc_matches M (build_filter q category min_price max_price) d
  = doc_matches M (build_filter q None None None) d
    && doc_matches M (build_filter None category None None) d
    && doc_matches M (build_filter None None min_price max_price) d.
Proof.
  unfold doc_matches, build_filter.
  destruct (nonempty q), (nonempty category), min_price, max_price;
    cbn [nonempty app forallb]; rewrite ?andb_true_r, ?andb_assoc;
    reflexivity.
Qed.

Lemma category_condition category d :
  well_typed d →
  doc_matches M (build_filter None category None None) d = true
  ↔ ∀ c, category = Some c → c ≠ [] → d !! "category" = Some (VStr c).
Proof.
  intros Hd. destruct category as [[|c s]|]; cbn.
  - split; [|done]. by intros _ ? [= <-].
  - rewrite andb_true_r.
    destruct (d !! "category") as [v|] eqn:Hv.
    + pose proof (well_typed_field d "category" TStr v Hd ltac:(set_solver) Hv)
        as Ht.
      destruct v; try discriminate Ht. cbn.
      rewrite orb_false_r, bool_decide_eq_true. split.
      * by intros -> ? [= <-] _.
      * intros H. by specialize (H _ eq_refl ltac:(done)) as [= ->].
    + cbn. split; [done|]. intros H. by specialize (H _ eq_refl ltac:(done)).
  - split; [|done]. by intros _ ? [=].
Qed.

(** The price a document of the schema's types holds. *)
Lemma typed_price d :
  well_typed d →
  d !! "price" = None ∨ ∃ v x, d !! "price" = Some v ∧ num v = Some x
                               ∧ candidates (Some v) = [v].
Proof.
  intros Hd. destruct (d !! "price") as [v|] eqn:Hv; [|by left]. right.
  pose proof (well_typed_field d "price" TFloat v Hd ltac:(set_solver) Hv) as Ht.
  destruct v; try discriminate Ht; eauto.
Qed.

Lemma price_condition min_price max_price d :
  well_typed d →
  doc_matches M (build_filter None None min_price max_price) d = true
  ↔ (∀ lo, min_price = Some lo →
       ∃ v x, d !! "price" = Some v ∧ num v = Some x ∧ (lo <= x)%Q)
    ∧ (∀ hi, max_price = Some hi →
       ∃ v x, d !! "price" = Some v ∧ num v = Some x ∧ (x <= hi)%Q).
Proof.
  intros Hd.
  destruct (typed_price d Hd) as [Hp|(v & x & Hp & Hx & Hc)].
  - destruct min_price as [lo|], max_price as [hi|]; cbn; rewrite ?Hp; cbn;
      (split; [try done|]).
    + intros [H _]. by destruct (H _ eq_refl) as (? & ? & ? & _).
    + intros [H _]. by destruct (H _ eq_refl) as (? & ? & ? & _).
    + intros [_ H]. by destruct (H _ eq_refl) as (? & ? & ? & _).
    + intros _. by split; intros ? [=].
  - destruct min_price as [lo|], max_price as [hi|]; cbn; rewrite ?Hp, ?Hc;
      cbn; unfold num_test; rewrite ?Hx;
      rewrite ?orb_false_r, ?andb_true_r, ?andb_true_iff, ?Qle_bool_iff.
    + split.
      * intros [Hlo Hhi]. split; intros ? [= <-]; eauto.
      * intros [H1 H2].
        destruct (H1 _ eq_refl) as (v1 & x1 & ? & ? & ?).
        destruct (H2 _ eq_refl) as (v2 & x2 & ? & ? & ?). by simplify_eq.
    + split.
      * intros Hlo. split; [intros ? [= <-]; eauto|by intros ? [=]].
      * intros [H1 _].
        destruct (H1 _ eq_refl) as (v1 & x1 & ? & ? & ?). by simplify_eq.
    + split.
      * intros Hhi. split; [by intros ? [=]|intros ? [= <-]; eauto].
      * intros [_ H2].
        destruct (H2 _ eq_refl) as (v2 & x2 & ? & ? & ?). by simplify_eq.
    + split; [|done]. intros _. by split; intros ? [=].
Qed.
End Selection.

(** ** From stored fields to the fields of the record *)

Section RecordFields.
Context (P : PyRuntime).

Lemma required_value {A} (g : value → option A) d k v a b :
  k ≠ "_id" → k ≠ "id" →
  required g (_to_id_str P d) k = Ok a → d !! k = Some v → g v = Some b →
  a = b.
Proof.
  intros H1 H2. unfold required. rewrite to_id_str_lookup by done.
  intros Ha Hv Hg. rewrite Hv, Hg in Ha. congruence.
Qed.

Lemma project_fields d r :
  project_product P d = Ok r →
  (∀ c, d !! "category" = Some (VStr c) → p_category r = c)
  ∧ (∀ v x, d !! "price" = Some v → num v = Some x → p_price r = x)
  ∧ (∀ v x, d !! "rating" = Some v → num v = Some x → p_rating r = x)
  ∧ (∀ n, d !! "reviews_count" = Some (VInt n) → p_reviews_count r = n).
Proof.
  intros Hr. unfold project_product, ProductOut_new in Hr.
  run_binds; try discriminate. simplify_eq. simpl.
  repeat split.
  - intros c Hc. eapply (required_value (as_str P) d "category");
      [done|done|eassumption|exact Hc|apply as_str_ok].
  - intros v x Hv Hx. eapply (required_value (as_float P) d "price");
      [done|done|eassumption|exact Hv|by apply as_float_ok].
  - intros v x Hv Hx. eapply (required_value (as_float P) d "rating");
      [done|done|eassumption|exact Hv|by apply as_float_ok].
  - intros n Hn. eapply (required_value (as_int P) d "reviews_count");
      [done|done|eassumption|exact Hn|apply as_int_ok].
Qed.
End RecordFields.

(** ** The filter *)

Section Filter.
Context (P : PyRuntime) (M : Mongo).

(** The records of a response are projections of stored documents that the
    filter selects. *)
Lemma get_products_sound h q category min_price max_price sort limit items r :
  get_products P M (Some h) q category min_price max_price sort limit = Ok items →
  r ∈ items →
  ∃ d, d ∈ collection h "product"
       ∧ doc_matches M (build_filter q category min_price max_price) d = true
       ∧ project_product P d = Ok r.
Proof.
  unfold get_products. intros H Hr.
  apply bind_Ok in H as (docs & Hfetch & Hitems).
  unfold fetch in Hfetch. case_match; [|done]. simplify_eq.
  apply comprehension_Ok in Hitems.
  apply list_elem_of_lookup in Hr as [i Hi].
  destruct (Forall2_lookup_r _ _ _ _ _ Hitems Hi) as (d & Hd & Hproj).
  apply list_elem_of_lookup_2, selected_sound in Hd as [Hin Hm].
  rewrite products_cursor_eq in Hin, Hm. eauto.
Qed.

(** The filter on a document of the schema's types, condition by
    condition. *)
Lemma doc_matches_conditions q category min_price max_price d :
  well_typed d →
  doc_matches M (build_filter q category min_price max_price) d = true
  ↔ doc_matches M (build_filter q None None None) d = true
    ∧ (∀ c, category = Some c → c ≠ [] → d !! "category" = Some (VStr c))
    ∧ (∀ lo, min_price = Some lo →
         ∃ v x, d !! "price" = Some v ∧ num v = Some x ∧ (lo <= x)%Q)
    ∧ (∀ hi, max_price = Some hi →
         ∃ v x, d !! "price" = Some v ∧ num v = Some x ∧ (x <= hi)%Q).
Proof.
  intros Hd. rewrite build_filter_split, !andb_true_iff.
  rewrite (category_condition M category d Hd).
  rewrite (price_condition M min_price max_price d Hd). tauto.
Qed.

(** C5 (as amended): the conditions of the filter are combined with a
    logical and.  A category that is given and not the empty string selects
    the documents whose category is that very string; a minimal price those
    whose price is at least it; a maximal price those whose price is at most
    it; with no parameter every document is selected.  The records of a
    response meet the same conditions.  (Documents are taken to hold values
    of the types of the stored schema.  A category given as the empty string
    adds no condition.) *)
Theorem filter_is_conjunction q category min_price max_price :
  (∀ d, well_typed d →
     doc_matches M (build_filter q category min_price max_price) d = true
     ↔ doc_matches M (build_filter q None None None) d = true
       ∧ (∀ c, category = Some c → c ≠ [] → d !! "category" = Some (VStr c))
       ∧ (∀ lo, min_price = Some lo →
            ∃ v x, d !! "price" = Some v ∧ num v = Some x ∧ (lo <= x)%Q)
       ∧ (∀ hi, max_price = Some hi →
            ∃ v x, d !! "price" = Some v ∧ num v = Some x ∧ (x <= hi)%Q))
  ∧ (∀ d, doc_matches M (build_filter None None None None) d = true)
  ∧ (∀ h sort limit items,
       Forall well_typed (collection h "product") →
       get_products P M (Some h) q category min_price max_price sort limit
       = Ok items →
       ∀ r, r ∈ items →
         (∀ c, category = Some c → c ≠ [] → p_category r = c)
         ∧ (∀ lo, min_price = Some lo → (lo <= p_price r)%Q)
         ∧ (∀ hi, max_price = Some hi → (p_price r <= hi)%Q)).
Proof.
  pose proof (doc_matches_conditions q category min_price max_price) as Hdoc.
  split; [exact Hdoc|]. split; [done|].
  intros h sort limit items Htyped Hitems r Hr.
  destruct (get_products_sound _ _ _ _ _ _ _ _ _ Hitems Hr)
    as (d & Hin & Hm & Hproj).
  rewrite Forall_forall in Htyped.
  apply Hdoc in Hm as (_ & Hcat & Hlo & Hhi); [|by apply Htyped].
  destruct (project_fields P d r Hproj) as (Hc & Hp & _).
  repeat split.
  - intros c Hc1 Hc2. apply Hc. by apply Hcat.
  - intros lo Hmin. destruct (Hlo _ Hmin) as (v & x & Hv & Hx & Hle).
    by rewrite (Hp v x Hv Hx).
  - intros hi Hmax. destruct (Hhi _ Hmax) as (v & x & Hv & Hx & Hle).
    by rewrite (Hp v x Hv Hx).
Qed.
End Filter.

(** C5, at the filter of the specification's example: category "Обувь" with
    prices from 1000 to 10000, on the sneakers and on the demo catalogue. *)
Lemma filter_is_conjunction_witness :
  (doc_matches stable_store
     (build_filter None (Some (txt "Обувь")) (Some 1000%Q) (Some 10000%Q))
     sneakers = true
   ↔ doc_matches stable_store (build_filter None None None None) sneakers = true
     ∧ (∀ c, Some (txt "Обувь") = Some c → c ≠ [] →
          sneakers !! "category" = Some (VStr c))
     ∧ (∀ lo, Some 1000%Q = Some lo →
          ∃ v x, sneakers !! "price" = Some v ∧ num v = Some x ∧ (lo <= x)%Q)
     ∧ (∀ hi, Some 10000%Q = Some hi →
          ∃ v x, sneakers !! "price" = Some v ∧ num v = Some x ∧ (x <= hi)%Q))
  ∧ ∀ r, r ∈ default [] (option_of
             (get_products strict stable_store (Some seed_db) None
                (Some (txt "Обувь")) (Some 1000%Q) (Some 10000%Q)
                (Some (txt "popularity")) 24)) →
      (∀ c, Some (txt "Обувь") = Some c → c ≠ [] → p_category r = c)
      ∧ (∀ lo, Some 1000%Q = Some lo → (lo <= p_price r)%Q)
      ∧ (∀ hi, Some 10000%Q = Some hi → (p_price r <= hi)%Q).
Proof.
  split.
  - apply (filter_is_conjunction strict stable_store None (Some (txt "Обувь"))
             (Some 1000%Q) (Some 10000%Q)).
    vm_compute. reflexivity.
  - intros r Hr.
    destruct (get_products strict stable_store (Some seed_db) None
                (Some (txt "Обувь")) (Some 1000%Q) (Some 10000%Q)
                (Some (txt "popularity")) 24) as [items|e] eqn:Hitems;
      [|by apply elem_of_nil in Hr].
    apply (proj2 (proj2 (filter_is_conjunction strict stable_store None
             (Some (txt "Обувь")) (Some 1000%Q) (Some 10000%Q)))
             seed_db (Some (txt "popularity")) 24 items); [|done|done].
    repeat constructor.
Defined.

(** C5, the claim fails: a category that is given, as the empty string, is
    not matched against the documents; all four products are returned, none
    of which has the empty category. *)
Lemma empty_category_selects_everything :
  Forall (λ d, d !! "category" ≠ Some (VStr [])) seed_products
  ∧ titles
      (get_products strict stable_store (Some seed_db) None (Some []) None None
         (Some (txt "popularity")) 24)
    = Some [txt "Наушники Sonic Pro"; txt "Футболка Basic Cotton";
            txt "Робот-пылесос CleanMax"; txt "Кроссовки AirFlex X"].
Proof.
  split; [|vm_compute; reflexivity].
  repeat constructor; intros H; vm_compute in H; discriminate.
Qed.

(** ** The result cap *)

Section Limit.
Context (P : PyRuntime) (M : Mongo).

Lemma limit_error r :
  "limit" ∈ request_errors r
  ↔ ¬ (1 ≤ default 24 (r_limit r) ≤ 100).
Proof.
  unfold request_errors. rewrite !elem_of_app.
  destruct (r_min_price r) as [x|]; [destruct (Qle_bool 0 x)|];
    (destruct (r_max_price r) as [y|]; [destruct (Qle_bool 0 y)|]);
    (destruct (Z.leb_spec 1 (default 24 (r_limit r)));
     destruct (Z.leb_spec (default 24 (r_limit r)) 100)); cbn [andb];
    set_unfold; split; intros; try lia; intuition (discriminate || lia).
Qed.

Lemma selected_products h q category min_price max_price sort limit :
  selected M (products_cursor h q category min_price max_price sort limit)
  = take_limit limit
      (sort_docs M (default "" (resolve_sort sort).1) (resolve_sort sort).2
         (List.filter (doc_matches M (build_filter q category min_price max_price))
            (collection h "product"))).
Proof. by rewrite products_cursor_eq. Qed.

(** C6: a request is rejected for its limit exactly when the limit (24 when
    none is given) is outside 1..100, and then whatever the store holds or
    whether there is one: no query runs.  With a limit in the range, the
    documents the handler projects are the first [limit] of the selected
    documents after these have been sorted, so a response has at most
    [limit] records: as many as there are selected documents, up to the
    limit. *)
Theorem limit_is_checked_then_caps r :
  ("limit" ∈ request_errors r ↔ ¬ (1 ≤ limit_of r ≤ 100))
  ∧ (¬ (1 ≤ limit_of r ≤ 100) →
     ∃ errs, "limit" ∈ errs
       ∧ ∀ db, listProducts P M db r = Err (RequestValidationError errs))
  ∧ (1 ≤ limit_of r ≤ 100 →
     ∀ h q category min_price max_price sort,
       selected M (products_cursor h q category min_price max_price sort
                     (limit_of r))
       = take (Z.to_nat (limit_of r))
           (sort_docs M (default "" (resolve_sort sort).1) (resolve_sort sort).2
              (List.filter
                 (doc_matches M (build_filter q category min_price max_price))
                 (collection h "product"))))
  ∧ (1 ≤ limit_of r ≤ 100 →
     ∀ h items,
       listProducts P M (Some h) r = Ok items →
       (length items ≤ Z.to_nat (limit_of r))%nat
       ∧ length items
         = Nat.min (Z.to_nat (limit_of r))
             (length (List.filter
                        (doc_matches M
                           (build_filter (r_q r) (r_category r) (r_min_price r)
                              (r_max_price r)))
                        (collection h "product")))).
Proof.
  unfold limit_of. split; [apply limit_error|]. split; [|split].
  - intros Hout. apply limit_error in Hout.
    exists (request_errors r). split; [done|]. intros db.
    unfold listProducts. destruct (request_errors r); [|done].
    by apply elem_of_nil in Hout.
  - intros Hin h q category min_price max_price sort.
    rewrite selected_products. unfold take_limit.
    destruct (Z.eqb_spec (default 24 (r_limit r)) 0) as [H0|_]; [lia|].
    do 2 f_equal. lia.
  - intros Hin h items. unfold listProducts.
    destruct (request_errors r); [|done].
    unfold get_products. intros H.
    apply bind_Ok in H as (docs & Hfetch & Hitems).
    unfold fetch in Hfetch. case_match; [|done]. simplify_eq.
    apply comprehension_length in Hitems. rewrite Hitems.
    rewrite selected_products, take_limit_length by lia.
    rewrite sort_perm. lia.
Qed.
End Limit.

(** C6, at the limits 0 and 101 (rejected) and 2 (two records of four). *)
Lemma limit_is_checked_then_caps_witness :
  (∃ errs, "limit" ∈ errs
     ∧ ∀ db, listProducts strict stable_store db
               {| r_q := None; r_category := None; r_min_price := None;
                  r_max_price := None; r_sort := None; r_limit := Some 0 |}
             = Err (RequestValidationError errs))
  ∧ (∃ errs, "limit" ∈ errs
     ∧ ∀ db, listProducts strict stable_store db
               {| r_q := None; r_category := None; r_min_price := None;
                  r_max_price := None; r_sort := None; r_limit := Some 101 |}
             = Err (RequestValidationError errs))
  ∧ ∀ items,
      listProducts strict stable_store (Some seed_db)
        {| r_q := None; r_category := None; r_min_price := None;
           r_max_price := None; r_sort := None; r_limit := Some 2 |}
      = Ok items →
      (length items ≤ 2)%nat ∧ length items = 2%nat.
Proof.
  split; [|split].
  - apply (limit_is_checked_then_caps strict stable_store).
    unfold limit_of. simpl. lia.
  - apply (limit_is_checked_then_caps strict stable_store).
    unfold limit_of. simpl. lia.
  - intros items Hitems.
    apply (proj2 (proj2 (proj2 (limit_is_checked_then_caps strict stable_store
             {| r_q := None; r_category := None; r_min_price := None;
                r_max_price := None; r_sort := None; r_limit := Some 2 |})))
             ltac:(unfold limit_of; simpl; lia) seed_db items Hitems).
Defined.

(** The limits 1 and 100 are accepted, and a request without a limit is a
    request for 24. *)
Example limit_bounds_inclusive :
  titles (listProducts strict stable_store (Some seed_db)
            {| r_q := None; r_category := None; r_min_price := None;
               r_max_price := None; r_sort := None; r_limit := Some 1 |})
  = Some [txt "Наушники Sonic Pro"]
  ∧ length <$> titles (listProducts strict stable_store (Some seed_db)
            {| r_q := None; r_category := None; r_min_price := None;
               r_max_price := None; r_sort := None; r_limit := Some 100 |})
    = Some 4%nat
  ∧ listProducts strict stable_store (Some seed_db)
      {| r_q := None; r_category := None; r_min_price := None;
         r_max_price := None; r_sort := None; r_limit := None |}
    = listProducts strict stable_store (Some seed_db)
        {| r_q := None; r_category := None; r_min_price := None;
           r_max_price := None; r_sort := None; r_limit := Some 24 |}.
Proof. repeat split; vm_compute; reflexivity. Qed.

(** ** Single lookup *)

Section Lookup.
Context (P : PyRuntime) (M : Mongo).

Lemma find_one_by_id coll oid :
  find_one M coll [Field "_id" (IsOid oid)]
  = Ok (head (List.filter (doc_matches M [Field "_id" (IsOid oid)]) coll)).
Proof. done. Qed.

(** A document that an identifier query selects holds an identifier. *)
Lemma id_match_truthy oid d :
  doc_matches M [Field "_id" (IsOid oid)] d = true → dict_truthy d = true.
Proof.
  unfold doc_matches. cbn [forallb clause_holds cond_holds].
  rewrite andb_true_r. intros H.
  destruct (d !! "_id") as [v|] eqn:Hv; [|done].
  unfold dict_truthy. destruct (map_to_list d) eqn:Hl; [|done].
  apply map_to_list_empty_iff in Hl. by rewrite Hl, lookup_empty in Hv.
Qed.

Lemma id_match_none coll oid :
  (∀ d, d ∈ coll → ∃ hex, d !! "_id" = Some (VOid hex) ∧ hex ≠ oid) →
  List.filter (doc_matches M [Field "_id" (IsOid oid)]) coll = [].
Proof.
  induction coll as [|d coll IH]; intros H; [done|]. simpl.
  destruct (H d) as (hex & Hd & Hne); [by left|].
  unfold doc_matches at 1. cbn [forallb clause_holds cond_holds].
  rewrite Hd. cbn. rewrite bool_decide_eq_false_2 by done. cbn.
  apply IH. intros d' Hd'. apply H. by right.
Qed.

Lemma get_product_live h product_id oid :
  object_id M product_id = Ok oid →
  get_product P M (Some h) product_id
  = try_except
      match head (List.filter (doc_matches M [Field "_id" (IsOid oid)])
                    (collection h "product")) with
      | Some d => if dict_truthy d
                  then r ← project_product P d; Ok (Some r)
                  else Ok None
      | None => Ok None
      end None.
Proof. intros H. unfold get_product. by rewrite H. Qed.

(** C7: the lookup never raises.  It answers with one record or with
    absence: absence when the identifier does not parse, absence when it
    parses and no stored product has it, absence when the product found
    fails projection, and the projected record otherwise. *)
Theorem get_product_answers_or_absent db product_id :
  (∃ answer, getProduct P M db product_id = Ok answer)
  ∧ (∀ e, object_id M product_id = Err e →
       getProduct P M db product_id = Ok None)
  ∧ (∀ h oid, db = Some h → object_id M product_id = Ok oid →
       (∀ d, d ∈ collection h "product" →
             ∃ hex, d !! "_id" = Some (VOid hex) ∧ hex ≠ oid) →
       getProduct P M db product_id = Ok None)
  ∧ (∀ h oid d, db = Some h → object_id M product_id = Ok oid →
       find_one M (collection h "product") [Field "_id" (IsOid oid)]
       = Ok (Some d) →
       (∀ e, project_product P d = Err e →
             getProduct P M db product_id = Ok None)
       ∧ (∀ r, project_product P d = Ok r →
               getProduct P M db product_id = Ok (Some r))).
Proof.
  unfold getProduct. split; [|split; [|split]].
  - unfold get_product. destruct db as [h|]; [|by eexists].
    unfold try_except. case_match; by eexists.
  - intros e He. unfold get_product. destruct db as [h|]; [|done].
    by rewrite He.
  - intros h oid -> Hoid Hnone.
    by rewrite (get_product_live _ _ _ Hoid), id_match_none.
  - intros h oid d -> Hoid Hfound.
    rewrite find_one_by_id in Hfound. injection Hfound as Hhead.
    rewrite (get_product_live _ _ _ Hoid), Hhead.
    apply head_Some_elem_of, list_elem_of_In, filter_In in Hhead as [_ Hm].
    rewrite (id_match_truthy _ _ Hm).
    split; [intros e ->|intros r ->]; done.
Qed.
End Lookup.

(** C7, at a malformed identifier, at a well-formed one that no product
    has, and at the identifier of the headphones. *)
Lemma get_product_answers_or_absent_witness :
  getProduct strict stable_store (Some seed_db) (txt "not-an-id") = Ok None
  ∧ getProduct strict stable_store (Some seed_db)
      (txt "000000000000000000000000") = Ok None
  ∧ (∀ r, project_product strict headphones = Ok r →
          getProduct strict stable_store (Some seed_db)
            (txt "65f0a1b2c3d4e5f6a7b8c9d2") = Ok (Some r)).
Proof.
  split; [|split].
  - apply (proj1 (proj2 (get_product_answers_or_absent strict stable_store
             (Some seed_db) (txt "not-an-id"))) InvalidId).
    vm_compute. reflexivity.
  - apply (proj1 (proj2 (proj2 (get_product_answers_or_absent strict
             stable_store (Some seed_db) (txt "000000000000000000000000"))))
             seed_db (txt "000000000000000000000000") eq_refl).
    + vm_compute. reflexivity.
    + intros d Hd.
      change (collection seed_db "product") with seed_products in Hd.
      unfold seed_products in Hd.
      repeat (apply elem_of_cons in Hd as [->|Hd]);
        [..|by apply elem_of_nil in Hd];
        eexists; (split; [vm_compute; reflexivity|]);
        intros H; vm_compute in H; discriminate.
  - apply (proj2 (proj2 (proj2 (get_product_answers_or_absent strict
             stable_store (Some seed_db) (txt "65f0a1b2c3d4e5f6a7b8c9d2"))))
             seed_db (txt "65f0a1b2c3d4e5f6a7b8c9d2") headphones eq_refl).
    + vm_compute. reflexivity.
    + vm_compute. reflexivity.
Defined.

(** A product stored without a title is found and not projected: absence. *)
Example get_product_unprojectable :
  get_product strict stable_store (Some flawed_db)
    (txt "65f0a1b2c3d4e5f6a7b8c9d1") = Ok None.
Proof. vm_compute. reflexivity. Qed.

(** ** The store is not there *)

Section Unavailable.
Context (P : PyRuntime) (M : Mongo).

End Unavailable.


(** ** Empty strings and zero bounds *)

Section Presence.
Context (P : PyRuntime) (M : Mongo).

End Presence.


(** A minimal price of 0 is a condition: a document without a price is
    selected when no bound is given and is not once the bound 0 is. *)
Example zero_bound_excludes_priceless :
  request_errors (price_request (Some 0%Q) None) = []
  ∧ doc_matches stable_store (build_filter None None None None) priceless = true
  ∧ doc_matches stable_store (build_filter None None (Some 0%Q) None) priceless
    = false
  ∧ doc_matches stable_store (build_filter None None None (Some 0%Q)) priceless
    = false.
Proof. repeat split; vm_compute; reflexivity. Qed.

(** ** The order of a listing *)



Section Order.
Context (P : PyRuntime) (M : Mongo).




End Order.


Example listing_by_price :
  titles (get_products strict stable_store (Some seed_db) None None None None
            (Some (txt "price_asc")) 24)
  = Some [txt "Футболка Basic Cotton"; txt "Кроссовки AirFlex X";
          txt "Наушники Sonic Pro"; txt "Робот-пылесос CleanMax"].
Proof. vm_compute. reflexivity. Qed.


(** * Further properties of the handlers and schemas *)

(** ** [_to_id_str] *)

Section Identifier.
Context (P : PyRuntime).

Lemma to_id_str_cases (d : doc) :
  (∃ v, d !! "_id" = Some v ∧ truthy v = true
        ∧ _to_id_str P d = <["id" := VStr (py_str P v)]> (delete "_id" d))
  ∨ ((d !! "_id" = None ∨ ∃ v, d !! "_id" = Some v ∧ truthy v = false)
     ∧ _to_id_str P d = d).
Proof.
  unfold _to_id_str.
  destruct (d !! "_id") as [v|] eqn:Hv; [destruct (truthy v) eqn:Ht|]; eauto 8.
Qed.

(** X1: [_to_id_str] leaves no truthy [_id] behind, so applying it a second
    time changes nothing. *)
Theorem to_id_str_idempotent (d : doc) :
  _to_id_str P (_to_id_str P d) = _to_id_str P d
  ∧ (∀ v, _to_id_str P d !! "_id" = Some v → truthy v = false).
Proof.
  destruct (to_id_str_cases d) as [(v & Hv & Ht & ->)|[Hd Heq]].
  - assert ((<["id" := VStr (py_str P v)]> (delete "_id" d) : doc) !! "_id"
            = None) as Hnone.
    { rewrite lookup_insert_ne by done. apply lookup_delete_eq. }
    split.
    + unfold _to_id_str. by rewrite Hnone.
    + intros w Hw. by rewrite Hnone in Hw.
  - rewrite !Heq. split; [done|].
    intros w Hw. destruct Hd as [Hd|(v & Hd & Ht)]; rewrite Hd in Hw;
      by simplify_eq.
Qed.

Lemma project_product_id (d : doc) (r : ProductOut) (hex : text) :
  project_product P d = Ok r → d !! "_id" = Some (VOid hex) → p_id r = hex.
Proof.
  intros Hr Hid. unfold project_product, ProductOut_new in Hr.
  run_binds; try discriminate. simplify_eq. simpl.
  match goal with
  | H : required (as_str P) _ "id" = Ok ?t |- _ =>
      unfold required in H; rewrite (to_id_str_id P d hex Hid) in H;
      rewrite as_str_ok in H; by injection H
  end.
Qed.

(** X2: the [id] of a projected product is the string form of the ObjectId
    the document is stored under, also when the document has a field [id]
    of its own. *)
Theorem projected_id_is_object_id (d : doc) (r : ProductOut) (hex : text) :
  project_product P d = Ok r → d !! "_id" = Some (VOid hex) → p_id r = hex.
Proof. apply project_product_id. Qed.

(** X3: a document without [_id], or whose [_id] is falsy (0, the empty
    string, ...), gets no [id] from [_to_id_str]; unless it has a field
    [id] of its own its projection fails. *)
Theorem falsy_id_fails_projection (d : doc) :
  (d !! "_id" = None ∨ ∃ v, d !! "_id" = Some v ∧ truthy v = false) →
  _to_id_str P d = d
  ∧ (d !! "id" = None → project_product P d = Err ValidationError).
Proof.
  intros Hid.
  assert (_to_id_str P d = d) as Heq.
  { unfold _to_id_str. by destruct Hid as [->|(v & -> & ->)]. }
  split; [done|]. intros Hnone.
  unfold project_product, ProductOut_new. rewrite Heq.
  by rewrite (required_absent (as_str P) d "id" Hnone).
Qed.
End Identifier.

(** X2, on the headphones given a field [id] of their own. *)
Lemma projected_id_is_object_id_witness :
  ∃ r, project_product strict (<["id" := VStr (txt "mine")]> headphones) = Ok r
       ∧ p_id r = txt "65f0a1b2c3d4e5f6a7b8c9d2".
Proof.
  destruct (project_product strict (<["id" := VStr (txt "mine")]> headphones))
    as [r|e] eqn:Hr.
  - exists r. split; [done|].
    apply (projected_id_is_object_id strict _ r _ Hr).
    vm_compute. reflexivity.
  - vm_compute in Hr. discriminate.
Defined.

(** X3, on a document stored under the identifier 0. *)
Lemma falsy_id_fails_projection_witness :
  _to_id_str strict (<["_id" := VInt 0]> bare) = <["_id" := VInt 0]> bare
  ∧ (<["_id" := VInt 0]> bare !! "id" = None →
     project_product strict (<["_id" := VInt 0]> bare) = Err ValidationError).
Proof.
  apply (falsy_id_fails_projection strict (<["_id" := VInt 0]> bare)).
  right. exists (VInt 0). split; vm_compute; reflexivity.
Defined.

(** ** Documents of the schema's types project *)

Section Totality.
Context (P : PyRuntime).

Lemma typed_validates t v :
  has_type t v = true →
  match t with
  | TStr => is_Some (as_str P v)
  | TOptStr => is_Some (as_opt_str P v)
  | TFloat => is_Some (as_float P v)
  | TInt => is_Some (as_int P v)
  | TBool => is_Some (as_bool P v)
  | TStrList => is_Some (as_str_list P v)
  end.
Proof.
  destruct t, v; try discriminate; simpl; intros Ht;
    rewrite ?as_str_ok, ?as_int_ok, ?as_bool_ok,
      ?(as_float_ok P (VInt _) _ eq_refl), ?(as_float_ok P (VDouble _) _ eq_refl);
    eauto.
  apply mapM_is_Some, Forall_forall. intros x Hx.
  rewrite forallb_forall in Ht. apply list_elem_of_In, Ht in Hx.
  destruct x; try discriminate. simpl. rewrite as_str_ok. eauto.
Qed.

Lemma required_Err_inv {A} (g : value → option A) kw k e :
  required g kw k = Err e →
  kw !! k = None ∨ ∃ v, kw !! k = Some v ∧ g v = None.
Proof.
  unfold required. destruct (kw !! k) as [v|]; [|by left].
  destruct (g v) eqn:Hg; [done|]. right. eauto.
Qed.

Lemma defaulted_Err_inv {A} (g : value → option A) dflt kw k e :
  defaulted g dflt kw k = Err e → ∃ v, kw !! k = Some v ∧ g v = None.
Proof.
  unfold defaulted. destruct (kw !! k) as [v|]; [|done].
  destruct (g v) eqn:Hg; [done|]. eauto.
Qed.

(** A field of the schema, when the document holds it, validates. *)
Lemma typed_field_validates d k t v :
  well_typed d → (k, t) ∈ Product_types → d !! k = Some v →
  match t with
  | TStr => is_Some (as_str P v)
  | TOptStr => is_Some (as_opt_str P v)
  | TFloat => is_Some (as_float P v)
  | TInt => is_Some (as_int P v)
  | TBool => is_Some (as_bool P v)
  | TStrList => is_Some (as_str_list P v)
  end.
Proof. intros Hd Hin Hv. by eapply typed_validates, well_typed_field. Qed.

(** Closes a branch in which the field [k] of type [t] failed. *)
Ltac field_cannot_fail d Hd k t :=
  match goal with
  | H : required _ _ k = Err _ |- _ =>
      apply required_Err_inv in H as [H|(? & H & Hg)];
      rewrite (to_id_str_lookup P d k) in H by done;
      [match goal with
       | Hp : is_Some (d !! k) |- _ => rewrite H in Hp; by destruct Hp
       end
      |pose proof (typed_field_validates d k t _ Hd ltac:(set_solver) H) as Hv;
       simpl in Hv; rewrite Hg in Hv; by destruct Hv]
  | H : defaulted _ _ _ k = Err _ |- _ =>
      apply defaulted_Err_inv in H as (? & H & Hg);
      rewrite (to_id_str_lookup P d k) in H by done;
      pose proof (typed_field_validates d k t _ Hd ltac:(set_solver) H) as Hv;
      simpl in Hv; rewrite Hg in Hv; by destruct Hv
  end.

Lemma typed_doc_projects (d : doc) (hex : text) :
  well_typed d → d !! "_id" = Some (VOid hex) →
  is_Some (d !! "title") → is_Some (d !! "price") →
  is_Some (d !! "category") → is_Some (d !! "rating") →
  is_Some (d !! "reviews_count") →
  ∃ r, project_product P d = Ok r.
Proof.
  intros Hd Hid Ht Hp Hc Hr Hn.
  destruct (project_product P d) as [r|e] eqn:Hproj; [by eexists|exfalso].
  unfold project_product, ProductOut_new in Hproj.
  run_binds; try discriminate; clear Hproj.
  - field_cannot_fail d Hd "tags" TStrList.
  - field_cannot_fail d Hd "discount_percent" TFloat.
  - field_cannot_fail d Hd "in_stock" TBool.
  - field_cannot_fail d Hd "sizes" TStrList.
  - field_cannot_fail d Hd "colors" TStrList.
  - field_cannot_fail d Hd "images" TStrList.
  - field_cannot_fail d Hd "reviews_count" TInt.
  - field_cannot_fail d Hd "rating" TFloat.
  - field_cannot_fail d Hd "brand" TOptStr.
  - field_cannot_fail d Hd "category" TStr.
  - field_cannot_fail d Hd "price" TFloat.
  - field_cannot_fail d Hd "description" TOptStr.
  - field_cannot_fail d Hd "title" TStr.
  - match goal with
    | H : required _ _ "id" = Err _ |- _ =>
        unfold required in H; rewrite (to_id_str_id P d hex Hid) in H;
        by rewrite as_str_ok in H
    end.
Qed.

(** X4: a stored product projects whenever it is stored under an ObjectId,
    holds a title, a price, a category, a rating and a review count, and
    each field it holds has the type the stored schema gives it. *)
Theorem well_typed_projects (d : doc) (hex : text) :
  well_typed d → d !! "_id" = Some (VOid hex) →
  is_Some (d !! "title") → is_Some (d !! "price") →
  is_Some (d !! "category") → is_Some (d !! "rating") →
  is_Some (d !! "reviews_count") →
  ∃ r, project_product P d = Ok r.
Proof. apply typed_doc_projects. Qed.
End Totality.

(** X4, on the sneakers of the demo catalogue. *)
Lemma well_typed_projects_witness :
  ∃ r, project_product strict sneakers = Ok r.
Proof.
  apply (well_typed_projects strict sneakers (txt "65f0a1b2c3d4e5f6a7b8c9d0"));
    try (vm_compute; reflexivity); vm_compute; eauto.
Defined.

(** ** Categories *)

Section Categories.
Context (P : PyRuntime) (M : Mongo).

Lemma CategoryOut_new_Err kw e :
  CategoryOut_new P kw = Err e → e = ValidationError.
Proof.
  unfold CategoryOut_new. intros H. run_binds; try discriminate; simplify_eq;
    eauto using @required_Err, @defaulted_Err.
Qed.

Lemma CategoryOut_new_ext kw kw' :
  (∀ j, j ∈ ["id"; "name"; "slug"; "icon"] → kw !! j = kw' !! j) →
  CategoryOut_new P kw = CategoryOut_new P kw'.
Proof.
  intros H. unfold CategoryOut_new, required, defaulted.
  rewrite !H by set_solver. done.
Qed.

(** X5: a stored category needs a name and a slug to project; its icon is
    optional (absent or null gives none); fields the public schema does not
    name are dropped; its [id] is the string form of its ObjectId. *)
Theorem category_projection (d : doc) :
  (d !! "name" = None ∨ d !! "slug" = None →
   project_category P d = Err ValidationError)
  ∧ (∀ k v, k ∉ ["_id"; "id"; "name"; "slug"; "icon"] →
       project_category P (<[k:=v]> d) = project_category P d)
  ∧ (∀ hex n s,
       d !! "_id" = Some (VOid hex) → d !! "name" = Some (VStr n) →
       d !! "slug" = Some (VStr s) →
       (d !! "icon" = None ∨ d !! "icon" = Some VNull →
        project_category P d
        = Ok {| c_id := hex; c_name := n; c_slug := s; c_icon := None |})
       ∧ (∀ i, d !! "icon" = Some (VStr i) →
            project_category P d
            = Ok {| c_id := hex; c_name := n; c_slug := s;
                    c_icon := Some i |})).
Proof.
  split; [|split].
  - intros Hnone.
    destruct (project_category P d) as [r|e] eqn:Hr.
    + exfalso. unfold project_category, CategoryOut_new in Hr.
      run_binds; try discriminate.
      unfold required in *.
      repeat match goal with
             | H : context [_to_id_str P d !! ?k] |- _ =>
                 rewrite (to_id_str_lookup P d k) in H by done
             end.
      destruct Hnone as [Hnone|Hnone]; rewrite Hnone in *; discriminate.
    + f_equal. by eapply CategoryOut_new_Err.
  - intros k v Hk. unfold project_category. apply CategoryOut_new_ext.
    intros j Hj. apply to_id_str_insert.
    + intros ->. apply Hk. by left.
    + intros ->. apply Hk. by right.
  - intros hex n s Hid Hn Hs.
    assert (∀ ic, defaulted (as_opt_str P) None (_to_id_str P d) "icon" = Ok ic →
                  project_category P d
                  = Ok {| c_id := hex; c_name := n; c_slug := s; c_icon := ic |})
      as Hic.
    { intros ic Hic. unfold project_category, CategoryOut_new.
      rewrite (required_present _ _ "id" (VStr hex) hex);
        [|by apply to_id_str_id|apply as_str_ok].
      simpl. rewrite (required_present _ _ "name" (VStr n) n);
        [|by rewrite to_id_str_lookup|apply as_str_ok].
      simpl. rewrite (required_present _ _ "slug" (VStr s) s);
        [|by rewrite to_id_str_lookup|apply as_str_ok].
      simpl. by rewrite Hic. }
    split.
    + intros Hicon. apply Hic. unfold defaulted.
      rewrite to_id_str_lookup by done.
      by destruct Hicon as [->| ->].
    + intros i Hicon. apply Hic. unfold defaulted.
      rewrite to_id_str_lookup by done. rewrite Hicon. simpl.
      by rewrite as_str_ok.
Qed.

Lemma filter_all (flt : list doc) :
  List.filter (doc_matches M []) flt = flt.
Proof. induction flt as [|d l IH]; [done|]. simpl. by rewrite IH. Qed.

Lemma fetch_find_all coll : fetch M (find coll []) = Ok coll.
Proof.
  unfold fetch, find, selected, take_limit. simpl. by rewrite filter_all.
Qed.

(** X6: the category listing first takes the truth value of the handle.
    When that is true, the response is the projection of every stored
    category, in store order, with no filter and no limit, and one category
    that does not project fails the request; when it is false the response
    is empty whatever is stored; when taking it raises, the request fails
    with that exception. *)
Theorem get_categories_live (h : database) :
  (db_truth M = Ok true →
     (∀ items, get_categories P M (Some h) = Ok items
               ↔ Forall2 (λ d r, project_category P d = Ok r)
                   (collection h "category") items)
     ∧ (get_categories P M (Some h) = Err ValidationError
        ↔ ∃ d, d ∈ collection h "category"
               ∧ ∀ r, project_category P d ≠ Ok r)
     ∧ (collection h "category" = [] → get_categories P M (Some h) = Ok []))
  ∧ (db_truth M = Ok false → get_categories P M (Some h) = Ok [])
  ∧ (∀ e, db_truth M = Err e → get_categories P M (Some h) = Err e).
Proof.
  split; [|split].
  - intros Ht.
    assert (get_categories P M (Some h)
            = comprehension (project_category P) (collection h "category"))
      as Heq.
    { unfold get_categories. rewrite Ht. cbn [mbind result_bind].
      by rewrite fetch_find_all. }
    rewrite Heq. split; [|split].
    + intros items. apply comprehension_Ok.
    + split.
      * intros Herr. apply comprehension_Err in Herr as (d & Hin & Hd).
        exists d. split; [done|]. intros r. by rewrite Hd.
      * intros (d & Hin & Hd).
        destruct (comprehension_total (project_category P)
                    (collection h "category")) as [[rs Hrs]|[e He]].
        -- apply comprehension_Ok in Hrs.
           apply list_elem_of_lookup in Hin as [i Hi].
           destruct (Forall2_lookup_l _ _ _ _ _ Hrs Hi) as (r & _ & Hr).
           by destruct (Hd r).
        -- rewrite He. f_equal.
           apply comprehension_Err in He as (d' & _ & Hd').
           by eapply CategoryOut_new_Err.
    + by intros ->.
  - intros Ht. unfold get_categories. by rewrite Ht.
  - intros e Ht. unfold get_categories. by rewrite Ht.
Qed.
End Categories.

(** X5, on the category "Обувь". *)
Lemma category_projection_witness :
  project_category strict shoes_category
  = Ok {| c_id := txt "65f0a1b2c3d4e5f6a7b8c9c1"; c_name := txt "Обувь";
          c_slug := txt "shoes"; c_icon := Some (txt "Shoe") |}.
Proof.
  apply (proj2 (proj2 (category_projection strict shoes_category))
           (txt "65f0a1b2c3d4e5f6a7b8c9c1") (txt "Обувь") (txt "shoes"));
    vm_compute; reflexivity.
Defined.

(** X6, with a handle that counts as true and with one whose truth value
    cannot be taken. *)
Lemma get_categories_live_witness :
  ((∀ items, get_categories strict live_store (Some category_db) = Ok items
             ↔ Forall2 (λ d r, project_category strict d = Ok r)
                 (collection category_db "category") items)
   ∧ (get_categories strict live_store (Some category_db) = Err ValidationError
      ↔ ∃ d, d ∈ collection category_db "category"
             ∧ ∀ r, project_category strict d ≠ Ok r)
   ∧ (collection category_db "category" = [] →
      get_categories strict live_store (Some category_db) = Ok []))
  ∧ get_categories strict stable_store (Some category_db)
    = Err NotImplementedError.
Proof.
  split.
  - apply (proj1 (get_categories_live strict live_store category_db) eq_refl).
  - apply (proj2 (proj2 (get_categories_live strict stable_store category_db))
             NotImplementedError eq_refl).
Defined.

(** ** The stored schema [Product] *)

Lemma required_Ok_inv {A} (g : value → option A) kw k a :
  required g kw k = Ok a → ∃ v, kw !! k = Some v ∧ g v = Some a.
Proof.
  unfold required. destruct (kw !! k) as [v|]; [|done].
  destruct (g v) eqn:Hg; [|done]. intros [= <-]. eauto.
Qed.

Lemma defaulted_Ok_inv {A} (g : value → option A) dflt kw k a :
  defaulted g dflt kw k = Ok a →
  (kw !! k = None ∧ a = dflt) ∨ ∃ v, kw !! k = Some v ∧ g v = Some a.
Proof.
  unfold defaulted. destruct (kw !! k) as [v|]; [|intros [= <-]; by left].
  destruct (g v) eqn:Hg; [|done]. intros [= <-]. eauto.
Qed.

Lemma ge_q_Some lo x y : ge_q lo x = Some y → y = x ∧ (lo <= x)%Q.
Proof.
  unfold ge_q. destruct (Qle_bool lo x) eqn:H; [|done].
  intros [= <-]. split; [done|]. by apply Qle_bool_iff.
Qed.

Lemma between_q_Some lo hi x y :
  between_q lo hi x = Some y → y = x ∧ (lo <= x)%Q ∧ (x <= hi)%Q.
Proof.
  unfold between_q.
  destruct (Qle_bool lo x) eqn:H1, (Qle_bool x hi) eqn:H2; try done.
  intros [= <-]. split; [done|]. split; by apply Qle_bool_iff.
Qed.

Lemma ge_z_Some lo z y : ge_z lo z = Some y → y = z ∧ lo ≤ z.
Proof.
  unfold ge_z. destruct (Z.leb_spec lo z); [|done]. by intros [= <-].
Qed.

Lemma bind_Some_inv {A B} (m : option A) (f : A → option B) b :
  m ≫= f = Some b → ∃ a, m = Some a ∧ f a = Some b.
Proof. destruct m as [a|]; [|done]. simpl. eauto. Qed.

Section StoredSchema.
Context (P : PyRuntime).

Lemma Product_new_Err kw e : Product_new P kw = Err e → e = ValidationError.
Proof.
  unfold Product_new. intros H. run_binds; try discriminate; simplify_eq;
    eauto using @required_Err, @defaulted_Err.
Qed.

(** The numeric fields of an accepted product, as validated values of the
    fields of the document. *)
Lemma Product_new_numbers kw p :
  Product_new P kw = Ok p →
  (∃ v, kw !! "price" = Some v ∧ as_float P v = Some (s_price p)
        ∧ (0 <= s_price p)%Q)
  ∧ ((kw !! "rating" = None ∧ s_rating p = (9 # 2)%Q)
     ∨ ∃ v, kw !! "rating" = Some v ∧ as_float P v = Some (s_rating p)
            ∧ (0 <= s_rating p)%Q ∧ (s_rating p <= 5)%Q)
  ∧ ((kw !! "reviews_count" = None ∧ s_reviews_count p = 0)
     ∨ ∃ v, kw !! "reviews_count" = Some v
            ∧ as_int P v = Some (s_reviews_count p) ∧ 0 ≤ s_reviews_count p)
  ∧ ((kw !! "discount_percent" = None ∧ s_discount_percent p = 0%Q)
     ∨ ∃ v, kw !! "discount_percent" = Some v
            ∧ as_float P v = Some (s_discount_percent p)
            ∧ (0 <= s_discount_percent p)%Q ∧ (s_discount_percent p <= 95)%Q).
Proof.
  unfold Product_new. intros H. run_binds; try discriminate.
  simplify_eq. simpl.
  repeat match goal with
         | H : required _ kw _ = Ok _ |- _ =>
             apply required_Ok_inv in H as (? & ? & ?)
         | H : defaulted _ _ kw _ = Ok _ |- _ =>
             apply defaulted_Ok_inv in H as [[? ?]|(? & ? & ?)]
         | H : _ ≫= _ = Some _ |- _ =>
             apply bind_Some_inv in H as (? & ? & ?)
         | H : ge_q _ _ = Some _ |- _ => apply ge_q_Some in H as [-> ?]
         | H : between_q _ _ _ = Some _ |- _ =>
             apply between_q_Some in H as (-> & ? & ?)
         | H : ge_z _ _ = Some _ |- _ => apply ge_z_Some in H as [-> ?]
         end; subst;
    repeat split; eauto 10.
Qed.

(** X7: a product the stored schema accepts is within the declared bounds:
    its price is not negative, its rating is between 0 and 5, its review
    count is not negative and its discount is between 0 and 95. *)
Theorem Product_within_bounds (kw : doc) (p : Product) :
  Product_new P kw = Ok p →
  (0 <= s_price p)%Q
  ∧ (0 <= s_rating p)%Q ∧ (s_rating p <= 5)%Q
  ∧ 0 ≤ s_reviews_count p
  ∧ (0 <= s_discount_percent p)%Q ∧ (s_discount_percent p <= 95)%Q.
Proof.
  intros Hp.
  destruct (Product_new_numbers kw p Hp) as ((? & ? & ? & ?) & Hr & Hn & Hd).
  split; [done|].
  assert ((0 <= s_rating p)%Q ∧ (s_rating p <= 5)%Q) as [? ?].
  { destruct Hr as [[_ ->]|(? & ? & ? & ? & ?)]; [|done].
    split; by apply Qle_bool_iff. }
  assert (0 ≤ s_reviews_count p).
  { destruct Hn as [[_ ->]|(? & ? & ? & ?)]; [done|done]. }
  assert ((0 <= s_discount_percent p)%Q ∧ (s_discount_percent p <= 95)%Q)
    as [? ?].
  { destruct Hd as [[_ ->]|(? & ? & ? & ? & ?)]; [|done].
    split; by apply Qle_bool_iff. }
  done.
Qed.
End StoredSchema.

Section StoredAndPublic.
Context (P : PyRuntime).

Lemma required_stored {A} (g : value → option A) d k :
  k ≠ "_id" → k ≠ "id" → required g (_to_id_str P d) k = required g d k.
Proof. intros. unfold required. by rewrite to_id_str_lookup. Qed.

Lemma defaulted_stored {A} (g : value → option A) dflt d k :
  k ≠ "_id" → k ≠ "id" →
  defaulted g dflt (_to_id_str P d) k = defaulted g dflt d k.
Proof. intros. unfold defaulted. by rewrite to_id_str_lookup. Qed.

Lemma required_weaken {A} (g : value → option A) (c : A → option A) kw k a :
  (∀ x y, c x = Some y → y = x) →
  required (λ v, g v ≫= c) kw k = Ok a → required g kw k = Ok a.
Proof.
  intros Hc. unfold required. destruct (kw !! k) as [v|]; [|done].
  destruct (g v) as [x|]; simpl; [|done].
  destruct (c x) as [y|] eqn:Hy; [|done]. intros [= <-]. by rewrite (Hc x y).
Qed.

Lemma defaulted_weaken {A} (g : value → option A) (c : A → option A) dflt kw k a :
  (∀ x y, c x = Some y → y = x) →
  defaulted (λ v, g v ≫= c) dflt kw k = Ok a → defaulted g dflt kw k = Ok a.
Proof.
  intros Hc. unfold defaulted. destruct (kw !! k) as [v|]; [|done].
  destruct (g v) as [x|]; simpl; [|done].
  destruct (c x) as [y|] eqn:Hy; [|done]. intros [= <-]. by rewrite (Hc x y).
Qed.

Lemma defaulted_present {A} (g : value → option A) dflt kw k a :
  is_Some (kw !! k) → defaulted g dflt kw k = Ok a → required g kw k = Ok a.
Proof. unfold defaulted, required. by intros [v ->]. Qed.

(** X8: the stored schema refuses a document whose price, rating, review
    count or discount validates to a number outside the declared bounds,
    and a document without a title, price or category. *)
Theorem Product_rejects_out_of_bounds (kw : doc) :
  (kw !! "title" = None ∨ kw !! "price" = None ∨ kw !! "category" = None →
   Product_new P kw = Err ValidationError)
  ∧ (∀ v x, kw !! "price" = Some v → as_float P v = Some x → (x < 0)%Q →
       Product_new P kw = Err ValidationError)
  ∧ (∀ v x, kw !! "rating" = Some v → as_float P v = Some x →
       (x < 0)%Q ∨ (5 < x)%Q → Product_new P kw = Err ValidationError)
  ∧ (∀ v n, kw !! "reviews_count" = Some v → as_int P v = Some n → n < 0 →
       Product_new P kw = Err ValidationError)
  ∧ (∀ v x, kw !! "discount_percent" = Some v → as_float P v = Some x →
       (x < 0)%Q ∨ (95 < x)%Q → Product_new P kw = Err ValidationError).
Proof.
  assert (∀ Q : Prop, (∀ p, Product_new P kw = Ok p → Q → False) → Q →
                      Product_new P kw = Err ValidationError) as Hno.
  { intros Q HQ q. destruct (Product_new P kw) as [p|e] eqn:Hp.
    - by destruct (HQ p).
    - f_equal. by eapply Product_new_Err. }
  repeat split.
  - apply Hno. intros p Hp Hnone. unfold Product_new in Hp.
    run_binds; try discriminate.
    repeat match goal with
           | H : required _ kw _ = Ok _ |- _ =>
               apply required_Ok_inv in H as (? & ? & _)
           end.
    destruct Hnone as [Hx|[Hx|Hx]]; congruence.
  - intros v x Hv Hx Hlt. revert Hlt. apply Hno. intros p Hp Hlt.
    destruct (Product_new_numbers P kw p Hp) as ((w & Hw & Hf & Hle) & _).
    simplify_eq. by apply Qlt_not_le in Hlt.
  - intros v x Hv Hx Hout. revert Hout. apply Hno. intros p Hp Hout.
    destruct (Product_new_numbers P kw p Hp)
      as (_ & [[Hn _]|(w & Hw & Hf & H0 & H5)] & _); [congruence|].
    simplify_eq. destruct Hout as [Hlt|Hlt]; by apply Qlt_not_le in Hlt.
  - intros v n Hv Hn Hlt. revert Hlt. apply Hno. intros p Hp Hlt.
    destruct (Product_new_numbers P kw p Hp)
      as (_ & _ & [[Hnone _]|(w & Hw & Hf & H0)] & _); [congruence|].
    simplify_eq. lia.
  - intros v x Hv Hx Hout. revert Hout. apply Hno. intros p Hp Hout.
    destruct (Product_new_numbers P kw p Hp)
      as (_ & _ & _ & [[Hn _]|(w & Hw & Hf & H0 & H95)]); [congruence|].
    simplify_eq. destruct Hout as [Hlt|Hlt]; by apply Qlt_not_le in Hlt.
Qed.

(** X9: a document the stored schema accepts, stored under an ObjectId and
    holding a rating and a review count, projects, and the public record has
    the values of the accepted product field by field, with the ObjectId's
    string form as [id]. *)
Theorem accepted_product_projects (d : doc) (p : Product) (hex : text) :
  Product_new P d = Ok p → d !! "_id" = Some (VOid hex) →
  is_Some (d !! "rating") → is_Some (d !! "reviews_count") →
  project_product P d
  = Ok {| p_id := hex; p_title := s_title p;
          p_description := s_description p; p_price := s_price p;
          p_category := s_category p; p_brand := s_brand p;
          p_rating := s_rating p; p_reviews_count := s_reviews_count p;
          p_images := s_images p; p_colors := s_colors p;
          p_sizes := s_sizes p; p_in_stock := s_in_stock p;
          p_discount_percent := s_discount_percent p;
          p_tags := s_tags p |}.
Proof.
  intros Hp Hid Hra Hrc. unfold Product_new in Hp.
  run_binds; try discriminate. simplify_eq. simpl.
  unfold project_product, ProductOut_new.
  rewrite (required_present _ _ "id" (VStr hex) hex);
    [|by apply to_id_str_id|apply as_str_ok].
  rewrite !required_stored, !defaulted_stored by done.
  repeat match goal with
         | H : required (λ v, _ ≫= _) d _ = Ok _ |- _ =>
             apply required_weaken in H;
             [|intros ? ? Hc; first [by apply ge_q_Some in Hc as [? _]
                                    |by apply ge_z_Some in Hc as [? _]]]
         | H : defaulted (λ v, _ ≫= _) _ d _ = Ok _ |- _ =>
             apply defaulted_weaken in H;
             [|intros ? ? Hc;
               first [by apply between_q_Some in Hc as [? _]
                     |by apply ge_z_Some in Hc as [? _]]]
         end.
  repeat match goal with
         | H : defaulted _ _ d "rating" = Ok _ |- _ =>
             apply (defaulted_present _ _ _ _ _ Hra) in H
         | H : defaulted _ _ d "reviews_count" = Ok _ |- _ =>
             apply (defaulted_present _ _ _ _ _ Hrc) in H
         end.
  repeat match goal with
         | H : required _ d _ = Ok _ |- _ => rewrite H; clear H
         | H : defaulted _ _ d _ = Ok _ |- _ => rewrite H; clear H
         end.
  done.
Qed.
End StoredAndPublic.

(** X7, X8 and X9 on the sneakers: accepted, within the bounds, and
    projected with the same values; refused once their price is -1. *)
Lemma Product_within_bounds_witness :
  ∃ p, Product_new strict sneakers = Ok p
       ∧ (0 <= s_price p)%Q
       ∧ (0 <= s_rating p)%Q ∧ (s_rating p <= 5)%Q
       ∧ 0 ≤ s_reviews_count p
       ∧ (0 <= s_discount_percent p)%Q ∧ (s_discount_percent p <= 95)%Q.
Proof.
  destruct (Product_new strict sneakers) as [p|e] eqn:Hp.
  - exists p. split; [done|]. by apply (Product_within_bounds strict sneakers p).
  - vm_compute in Hp. discriminate.
Defined.

Lemma Product_rejects_out_of_bounds_witness :
  Product_new strict (<["price" := VInt (-1)]> sneakers) = Err ValidationError.
Proof.
  apply (proj1 (proj2 (Product_rejects_out_of_bounds strict
           (<["price" := VInt (-1)]> sneakers))) (VInt (-1)) (-1)%Q);
    vm_compute; reflexivity.
Defined.

Lemma accepted_product_projects_witness :
  ∃ p, Product_new strict sneakers = Ok p
       ∧ (p_title <$> option_of (project_product strict sneakers))
         = Some (s_title p)
       ∧ (p_price <$> option_of (project_product strict sneakers))
         = Some (s_price p).
Proof.
  destruct (Product_new strict sneakers) as [p|e] eqn:Hp.
  - exists p. split; [done|].
    rewrite (accepted_product_projects strict sneakers p
               (txt "65f0a1b2c3d4e5f6a7b8c9d0") Hp);
      [done|vm_compute; reflexivity|vm_compute; eauto|vm_compute; eauto].
  - vm_compute in Hp. discriminate.
Defined.

(** ** More on the product listing *)


Lemma Qle_bool_false x y : Qle_bool x y = false ↔ (y < x)%Q.
Proof.
  split.
  - intros H. apply Qnot_le_lt. intros Hle. apply Qle_bool_iff in Hle.
    congruence.
  - intros H. destruct (Qle_bool x y) eqn:Hb; [|done].
    apply Qle_bool_iff in Hb. by apply Qlt_not_le in H.
Qed.

Lemma elem_bound_error (s name : string) (b : option Q) :
  s ∈ match b with
      | Some x => if Qle_bool 0 x then [] else [name]
      | None => []
      end
  ↔ s = name ∧ ∃ x, b = Some x ∧ (x < 0)%Q.
Proof.
  destruct b as [x|]; [destruct (Qle_bool 0 x) eqn:Hx|].
  - apply Qle_bool_iff in Hx. split; [by intros ?%elem_of_nil|].
    intros (_ & y & [= <-] & Hlt). by apply Qlt_not_le in Hlt.
  - apply Qle_bool_false in Hx. rewrite list_elem_of_singleton. split.
    + intros ->. eauto.
    + by intros [-> _].
  - split; [by intros ?%elem_of_nil|]. by intros (_ & y & [=] & _).
Qed.

Lemma elem_request_errors (s : string) (r : ProductsRequest) :
  s ∈ request_errors r
  ↔ (s = "min_price" ∧ ∃ x, r_min_price r = Some x ∧ (x < 0)%Q)
    ∨ (s = "max_price" ∧ ∃ x, r_max_price r = Some x ∧ (x < 0)%Q)
    ∨ (s = "limit" ∧ ¬ (1 ≤ limit_of r ≤ 100)).
Proof.
  unfold request_errors, limit_of. rewrite !elem_of_app, !elem_bound_error.
  apply or_iff_both; [done|]. apply or_iff_both; [done|].
  destruct (Z.leb_spec 1 (default 24 (r_limit r)));
    destruct (Z.leb_spec (default 24 (r_limit r)) 100); cbn [andb].
  all: try (split; [by intros ?%elem_of_nil|intros [_ Hn]; lia]).
  all: rewrite list_elem_of_singleton;
    (split; [intros ->; split; [done|lia]|by intros [-> _]]).
Qed.

Section ListingMore.
Context (P : PyRuntime) (M : Mongo).

Lemma get_products_unfold h q category min_price max_price sort limit :
  query_in_model (build_filter q category min_price max_price) = true →
  get_products P M (Some h) q category min_price max_price sort limit
  = comprehension (project_product P)
      (take_limit limit
         (sort_docs M (default "" (resolve_sort sort).1) (resolve_sort sort).2
            (List.filter
               (doc_matches M (build_filter q category min_price max_price))
               (collection h "product")))).
Proof.
  intros Hq. unfold get_products, fetch.
  rewrite <- selected_products.
  replace (cur_filter (products_cursor h q category min_price max_price sort
                         limit))
    with (build_filter q category min_price max_price)
    by (by rewrite products_cursor_eq).
  by rewrite Hq.
Qed.

Lemma sort_docs_nil key dir : sort_docs M key dir [] = [].
Proof. apply Permutation_nil_r, sort_perm. Qed.

(** X10: with a minimal price above the maximal price no product whose
    price is a number is selected, and the response is empty. *)
Theorem inverted_price_range_is_empty h q category lo hi sort limit :
  (hi < lo)%Q →
  Forall well_typed (collection h "product") →
  query_in_model (build_filter q category (Some lo) (Some hi)) = true →
  get_products P M (Some h) q category (Some lo) (Some hi) sort limit = Ok [].
Proof.
  intros Hinv Htyped Hq. rewrite get_products_unfold by done.
  replace (List.filter _ (collection h "product")) with (@nil doc).
  { rewrite sort_docs_nil. unfold take_limit.
    destruct (limit =? 0); by rewrite ?take_nil. }
  symmetry. rewrite Forall_forall in Htyped.
  induction (collection h "product") as [|d l IH]; [done|]. simpl.
  destruct (doc_matches M (build_filter q category (Some lo) (Some hi)) d)
    eqn:Hm.
  - exfalso.
    apply doc_matches_conditions in Hm as (_ & _ & Hlo & Hhi);
      [|apply Htyped; by left].
    destruct (Hlo _ eq_refl) as (v & x & Hv & Hx & Hle1).
    destruct (Hhi _ eq_refl) as (v' & x' & Hv' & Hx' & Hle2).
    simplify_eq. apply (Qlt_not_le _ _ Hinv). by eapply Qle_trans.
  - apply IH. intros d' Hd'. apply Htyped. by right.
Qed.

(** X11: a price bound is refused exactly when it is given and negative; a
    request with a refused parameter fails with the list of the refused
    parameters whatever the store holds, and a request passes the check
    exactly when no bound is negative and the limit is within 1..100. *)
Theorem price_bounds_are_checked (r : ProductsRequest) :
  ("min_price" ∈ request_errors r
   ↔ ∃ x, r_min_price r = Some x ∧ (x < 0)%Q)
  ∧ ("max_price" ∈ request_errors r
     ↔ ∃ x, r_max_price r = Some x ∧ (x < 0)%Q)
  ∧ (request_errors r ≠ [] →
     ∀ db, listProducts P M db r
           = Err (RequestValidationError (request_errors r)))
  ∧ (request_errors r = []
     ↔ (∀ x, r_min_price r = Some x → (0 <= x)%Q)
       ∧ (∀ x, r_max_price r = Some x → (0 <= x)%Q)
       ∧ 1 ≤ limit_of r ≤ 100).
Proof.
  split; [|split; [|split]].
  - rewrite elem_request_errors. split.
    + by intros [[_ H]|[[? _]|[? _]]].
    + intros H. by left.
  - rewrite elem_request_errors. split.
    + by intros [[? _]|[[_ H]|[? _]]].
    + intros H. right. by left.
  - intros Hne db. unfold listProducts. by destruct (request_errors r).
  - split.
    + intros Hnil.
      assert (∀ s, ¬ s ∈ request_errors r) as Hno.
      { intros s. rewrite Hnil. apply not_elem_of_nil. }
      repeat split.
      * intros x Hx. destruct (Qlt_le_dec x 0) as [Hlt|Hle]; [|done].
        destruct (Hno "min_price"). apply elem_request_errors. eauto 6.
      * intros x Hx. destruct (Qlt_le_dec x 0) as [Hlt|Hle]; [|done].
        destruct (Hno "max_price"). apply elem_request_errors. eauto 8.
      * destruct (decide (1 ≤ limit_of r)) as [?|Hn]; [done|].
        destruct (Hno "limit"). apply elem_request_errors.
        right. right. split; [done|]. unfold limit_of in *. lia.
      * destruct (decide (limit_of r ≤ 100)) as [?|Hn]; [done|].
        destruct (Hno "limit"). apply elem_request_errors.
        right. right. split; [done|]. unfold limit_of in *. lia.
    + intros (Hmin & Hmax & Hlim).
      destruct (request_errors r) as [|s l] eqn:He; [done|exfalso].
      assert (s ∈ request_errors r) as Hs by (rewrite He; by left).
      apply elem_request_errors in Hs
        as [(_ & x & Hx & Hlt)|[(_ & x & Hx & Hlt)|(_ & Hl)]].
      * apply (Qlt_not_le _ _ Hlt). by apply Hmin.
      * apply (Qlt_not_le _ _ Hlt). by apply Hmax.
      * by apply Hl.
Qed.
End ListingMore.

(** X10, on the demo catalogue with prices from 10000 down to 1000. *)
Lemma inverted_price_range_is_empty_witness :
  get_products strict stable_store (Some seed_db) None None (Some 10000%Q)
    (Some 1000%Q) None 24 = Ok [].
Proof.
  apply (inverted_price_range_is_empty strict stable_store seed_db None None
           10000%Q 1000%Q None 24).
  - reflexivity.
  - repeat constructor.
  - reflexivity.
Defined.

(** X11, at a minimal price of -1. *)
Lemma price_bounds_are_checked_witness :
  listProducts strict stable_store (Some seed_db)
    (price_request (Some (-1)%Q) None)
  = Err (RequestValidationError
           (request_errors (price_request (Some (-1)%Q) None))).
Proof.
  apply (proj1 (proj2 (proj2 (price_bounds_are_checked strict stable_store
           (price_request (Some (-1)%Q) None))))).
  vm_compute. discriminate.
Defined.

Section ListingAndLookup.
Context (P : PyRuntime) (M : Mongo).


Lemma id_match d hex hex' :
  d !! "_id" = Some (VOid hex') →
  doc_matches M [Field "_id" (IsOid hex)] d = true ↔ hex' = hex.
Proof.
  intros Hd. unfold doc_matches. cbn [forallb clause_holds cond_holds].
  rewrite Hd. cbn. by rewrite !orb_false_r, andb_true_r, bool_decide_eq_true.
Qed.

(** X13: a record of a listing can be looked up by its [id]: when every
    stored product has an ObjectId that parses back to itself and no two
    products share one, the lookup of the [id] of a listed record returns
    that record. *)
Theorem listed_product_is_found h q category min_price max_price sort limit
    items r :
  (∀ d, d ∈ collection h "product" →
        ∃ hex, d !! "_id" = Some (VOid hex) ∧ object_id M hex = Ok hex) →
  (∀ d1 d2, d1 ∈ collection h "product" → d2 ∈ collection h "product" →
            d1 !! "_id" = d2 !! "_id" → d1 = d2) →
  get_products P M (Some h) q category min_price max_price sort limit = Ok items →
  r ∈ items →
  get_product P M (Some h) (p_id r) = Ok (Some r).
Proof.
  intros Hids Huniq Hitems Hr.
  destruct (get_products_sound P M _ _ _ _ _ _ _ _ _ Hitems Hr)
    as (d & Hin & _ & Hproj).
  destruct (Hids d Hin) as (hex & Hd & Hparse).
  rewrite (project_product_id P d r hex Hproj Hd).
  rewrite (get_product_live P M _ _ _ Hparse).
  assert (d ∈ List.filter (doc_matches M [Field "_id" (IsOid hex)])
                (collection h "product")) as Hf.
  { apply list_elem_of_In, filter_In. split; [by apply list_elem_of_In|].
    by apply (id_match d hex hex). }
  destruct (List.filter _ (collection h "product")) as [|d' l] eqn:Hfl;
    [by apply elem_of_nil in Hf|].
  assert (d' = d) as ->.
  { assert (In d' (d' :: l)) as Hd' by (by left).
    rewrite <- Hfl in Hd'. apply filter_In in Hd' as [Hin' Hm'].
    apply list_elem_of_In in Hin'.
    destruct (Hids d' Hin') as (hex' & Hd'' & _).
    apply (id_match d' hex hex' Hd'') in Hm' as ->.
    apply Huniq; [done|done|congruence]. }
  cbn [head].
  rewrite (id_match_truthy M hex d) by (by apply (id_match d hex hex)).
  by rewrite Hproj.
Qed.

(** X14: what a lookup returns is the projection of a stored product whose
    ObjectId is the one the requested identifier parses to, and the [id] of
    the record is that ObjectId's string form. *)
Theorem found_product_has_requested_id h product_id r :
  (∀ d, d ∈ collection h "product" → ∃ hex, d !! "_id" = Some (VOid hex)) →
  get_product P M (Some h) product_id = Ok (Some r) →
  ∃ oid d, object_id M product_id = Ok oid
           ∧ d ∈ collection h "product"
           ∧ d !! "_id" = Some (VOid oid)
           ∧ project_product P d = Ok r
           ∧ p_id r = oid.
Proof.
  intros Hids Hget.
  destruct (object_id M product_id) as [oid|e] eqn:Hparse.
  - rewrite (get_product_live P M _ _ _ Hparse) in Hget.
    destruct (head _) as [d|] eqn:Hhead; [|done].
    apply head_Some_elem_of, list_elem_of_In, filter_In in Hhead as [Hin Hm].
    apply list_elem_of_In in Hin.
    destruct (Hids d Hin) as (hex & Hd).
    apply (id_match d oid hex Hd) in Hm as ->.
    destruct (dict_truthy d); [|done].
    destruct (project_product P d) as [r'|e] eqn:Hproj; [|done].
    injection Hget as ->.
    exists oid, d. repeat split; try done.
    by apply (project_product_id P d r oid).
  - unfold get_product in Hget. by rewrite Hparse in Hget.
Qed.

(** X15: over a product collection that is empty or does not exist, every
    listing is empty and every lookup answers absence. *)
Theorem empty_collection_lists_nothing h :
  (h !! "product" = None ∨ h !! "product" = Some []) →
  (∀ q category min_price max_price sort limit,
     query_in_model (build_filter q category min_price max_price) = true →
     get_products P M (Some h) q category min_price max_price sort limit = Ok [])
  ∧ (∀ product_id, get_product P M (Some h) product_id = Ok None).
Proof.
  intros Hempty.
  assert (collection h "product" = []) as Hcoll.
  { unfold collection. by destruct Hempty as [->| ->]. }
  split.
  - intros q category min_price max_price sort limit Hq.
    rewrite get_products_unfold, Hcoll by done. simpl.
    rewrite sort_docs_nil. unfold take_limit.
    destruct (limit =? 0); by rewrite ?take_nil.
  - intros product_id. unfold get_product.
    destruct (object_id M product_id) as [oid|e]; [|done].
    cbn [mbind result_bind]. by rewrite find_one_by_id, Hcoll.
Qed.
End ListingAndLookup.

Lemma NoDup_fmap_inj_on {A B} (f : A → B) (l : list A) x y :
  NoDup (f <$> l) → x ∈ l → y ∈ l → f x = f y → x = y.
Proof.
  induction l as [|a l IH]; [by intros _ ?%elem_of_nil|].
  rewrite fmap_cons, NoDup_cons.
  intros [Ha Hl] [->|Hx]%elem_of_cons [->|Hy]%elem_of_cons Hf; try done.
  - destruct Ha. rewrite Hf. by apply list_elem_of_fmap_2.
  - destruct Ha. rewrite <- Hf. by apply list_elem_of_fmap_2.
  - by apply IH.
Qed.

Lemma seed_ids_parse :
  Forall (λ d, ∃ hex, d !! "_id" = Some (VOid hex)
                      ∧ object_id stable_store hex = Ok hex) seed_products.
Proof.
  repeat constructor; eexists; (split; vm_compute; reflexivity).
Qed.

Lemma seed_ids_differ : NoDup ((λ d : doc, d !! "_id") <$> seed_products).
Proof.
  assert ((λ d : doc, d !! "_id") <$> seed_products
          = [Some (VOid (txt "65f0a1b2c3d4e5f6a7b8c9d0"));
             Some (VOid (txt "65f0a1b2c3d4e5f6a7b8c9d1"));
             Some (VOid (txt "65f0a1b2c3d4e5f6a7b8c9d2"));
             Some (VOid (txt "65f0a1b2c3d4e5f6a7b8c9d3"))]) as ->
    by (vm_compute; reflexivity).
  repeat (apply NoDup_cons; split;
          [rewrite ?elem_of_cons, elem_of_nil; intros H;
           repeat (destruct H as [H|H]; [vm_compute in H; discriminate H|]);
           done|]).
  apply NoDup_nil_2.
Qed.


(** X13, on the demo catalogue: each listed record is found by its [id]. *)
Lemma listed_product_is_found_witness :
  ∃ items,
    get_products strict stable_store (Some seed_db) None None None None None 24
    = Ok items
    ∧ Forall (λ r, get_product strict stable_store (Some seed_db) (p_id r)
                   = Ok (Some r)) items.
Proof.
  destruct (get_products strict stable_store (Some seed_db) None None None None
              None 24) as [items|e] eqn:Hitems.
  - exists items. split; [done|]. apply Forall_forall. intros r Hr.
    apply (listed_product_is_found strict stable_store seed_db None None None
             None None 24 items r); [| |exact Hitems|exact Hr].
    + apply Forall_forall. exact seed_ids_parse.
    + intros d1 d2 H1 H2. by apply (NoDup_fmap_inj_on _ _ _ _ seed_ids_differ).
  - vm_compute in Hitems. discriminate.
Defined.

(** X14, at the identifier of the headphones, in capitals. *)
Lemma found_product_has_requested_id_witness :
  ∃ r, get_product strict stable_store (Some seed_db)
         (txt "65F0A1B2C3D4E5F6A7B8C9D2") = Ok (Some r)
       ∧ ∃ oid d, object_id stable_store (txt "65F0A1B2C3D4E5F6A7B8C9D2") = Ok oid
                  ∧ d ∈ collection seed_db "product"
                  ∧ d !! "_id" = Some (VOid oid)
                  ∧ project_product strict d = Ok r
                  ∧ p_id r = oid.
Proof.
  destruct (get_product strict stable_store (Some seed_db)
              (txt "65F0A1B2C3D4E5F6A7B8C9D2")) as [[r|]|e] eqn:Hget.
  - exists r. split; [done|].
    apply (found_product_has_requested_id strict stable_store seed_db
             (txt "65F0A1B2C3D4E5F6A7B8C9D2") r); [|done].
    intros d Hd.
    destruct (proj1 (Forall_forall _ _) seed_ids_parse d Hd) as (hex & Hhex & _).
    eauto.
  - vm_compute in Hget. discriminate.
  - vm_compute in Hget. discriminate.
Defined.

(** X15, on a store without collections. *)
Lemma empty_collection_lists_nothing_witness :
  get_products strict stable_store (Some ∅) None None None None None 24 = Ok []
  ∧ get_product strict stable_store (Some ∅) (txt "65f0a1b2c3d4e5f6a7b8c9d2")
    = Ok None.
Proof.
  destruct (empty_collection_lists_nothing strict stable_store ∅)
    as [Hlist Hget]; [by left|].
  split; [by apply Hlist|apply Hget].
Defined.

(** ** Search, case put aside *)

Lemma search_filter_in_model q category min_price max_price :
  q ≠ [] → plain q →
  query_in_model (build_filter (Some q) category min_price max_price) = true.
Proof.
  intros Hne Hq. destruct q as [|c q]; [done|]. rewrite build_filter_q.
  pose proof (build_filter_no_q_in_model category min_price max_price) as Hm.
  unfold query_in_model in *.
  cbn [forallb clause_in_model cond_in_model snd].
  rewrite (parse_plain _ Hq), Hm.
  by rewrite bool_decide_eq_true_2 by eauto.
Qed.

Section CaseInsensitive.
Context (P : PyRuntime) (M : Mongo).

Lemma contains_ci_fold fold q1 q2 s :
  fold <$> q1 = fold <$> q2 → contains_ci fold q1 s ↔ contains_ci fold q2 s.
Proof. unfold contains_ci. by intros ->. Qed.

Lemma regex_search_fold q1 q2 s :
  plain q1 → plain q2 → fold_case M <$> q1 = fold_case M <$> q2 →
  regex_search (fold_case M) q1 s = regex_search (fold_case M) q2 s.
Proof.
  intros H1 H2 Hq.
  destruct (regex_search (fold_case M) q1 s) eqn:E1;
    destruct (regex_search (fold_case M) q2 s) eqn:E2; try done.
  - apply regex_search_plain in E1; [|done].
    apply (contains_ci_fold _ _ _ _ Hq), regex_search_plain in E1; [|done].
    congruence.
  - apply regex_search_plain in E2; [|done].
    apply (contains_ci_fold _ _ _ _ Hq), regex_search_plain in E2; [|done].
    congruence.
Qed.

Lemma regex_cond_fold q1 q2 v :
  plain q1 → plain q2 → fold_case M <$> q1 = fold_case M <$> q2 →
  cond_holds M (RegexI q1) v = cond_holds M (RegexI q2) v.
Proof.
  intros H1 H2 Hq. cbn [cond_holds].
  induction (candidates v) as [|x l IH]; [done|]. cbn [existsb].
  rewrite IH. f_equal. destruct x; try done. by apply regex_search_fold.
Qed.

(** X16: two search strings without metacharacters that are equal once
    case folded give the same response. *)
Theorem search_ignores_case db q1 q2 category min_price max_price sort limit :
  plain q1 → plain q2 → fold_case M <$> q1 = fold_case M <$> q2 →
  get_products P M db (Some q1) category min_price max_price sort limit
  = get_products P M db (Some q2) category min_price max_price sort limit.
Proof.
  intros H1 H2 Hq. destruct db as [h|]; [|done].
  destruct q1 as [|c1 q1], q2 as [|c2 q2]; try done.
  pose proof (search_filter_in_model (c1 :: q1) category min_price max_price
                ltac:(done) H1) as Hm1.
  pose proof (search_filter_in_model (c2 :: q2) category min_price max_price
                ltac:(done) H2) as Hm2.
  rewrite !get_products_unfold by done. do 3 f_equal.
  apply filter_ext. intros d. rewrite !build_filter_q.
  unfold doc_matches. cbn [forallb clause_holds existsb fst snd].
  by rewrite !(regex_cond_fold (c1 :: q1) (c2 :: q2)).
Qed.
End CaseInsensitive.

(** X16, at "sonic" and "SONIC". *)
Lemma search_ignores_case_witness :
  get_products strict stable_store (Some seed_db) (Some (txt "sonic")) None None
    None None 24
  = get_products strict stable_store (Some seed_db) (Some (txt "SONIC")) None
      None None None 24.
Proof.
  apply (search_ignores_case strict stable_store (Some seed_db) (txt "sonic")
           (txt "SONIC") None None None None 24).
  - unfold plain. apply (bool_decide_unpack _). vm_compute. exact I.
  - unfold plain. apply (bool_decide_unpack _). vm_compute. exact I.
  - vm_compute. reflexivity.
Defined.

(** ** The health report *)

Arguments txt : simpl never.

(** X17: the report lists the first ten, at most, of the collection names
    the store returns, in their order; it lists none when there is no handle
    or when asking the store raises. *)
Theorem health_report_collections (db : option Handle) (url : option text) :
  (length (t_collections (test_database db url)) ≤ 10)%nat
  ∧ (∀ h names, db = Some h → list_collection_names h = Returns names →
       t_collections (test_database db url) = take 10 names
       ∧ ((length names ≤ 10)%nat →
          t_collections (test_database db url) = names))
  ∧ (∀ h e, db = Some h → list_collection_names h = Raises e →
       t_collections (test_database db url) = [])
  ∧ (db = None → t_collections (test_database db url) = []).
Proof.
  unfold test_database. split; [|split; [|split]].
  - destruct db as [h|]; [|cbn; lia].
    destruct (list_collection_names h) as [names|e]; cbn; [|lia].
    rewrite length_take. lia.
  - intros h names -> Hn. rewrite Hn. cbn.
    split; [done|]. intros Hlen. by apply take_ge.
  - intros h e -> He. by rewrite He.
  - by intros ->.
Qed.

(** X18: whatever the state of the store, the report says the backend runs
    and never keeps the initial database status: that status tells a
    missing handle, a working store, or a store whose answer raised, in
    which case it carries at most 80 characters of the message.  The
    connection counts as made, and the database URL and name are reported,
    exactly when there is a handle, also when asking the store raises. *)
Theorem health_report_status (db : option Handle) (url : option text) :
  t_backend (test_database db url) = txt "✅ Running"
  ∧ t_database (test_database db url) ≠ t_database initial_report
  ∧ (length (t_database (test_database db url)) ≤ 104)%nat
  ∧ (∀ h e, db = Some h → list_collection_names h = Raises e →
       t_database (test_database db url)
       = txt "⚠️ Connected but Error: " ++ take 80 e)
  ∧ (t_connection_status (test_database db url) = txt "Connected"
     ↔ db ≠ None)
  ∧ (is_Some (t_database_url (test_database db url)) ↔ db ≠ None)
  ∧ (is_Some (t_database_name (test_database db url)) ↔ db ≠ None)
  ∧ (t_database_url (test_database db url) = Some (txt "✅ Set")
     ↔ db ≠ None ∧ ∃ c s, url = Some (c :: s)).
Proof.
  assert (length (txt "⚠️ Connected but Error: ") = 24%nat) as Hlen
    by (vm_compute; reflexivity).
  destruct db as [h|].
  - assert (Some h ≠ None) as Hsome by done.
    assert (Some (match nonempty url with
                  | Some _ => txt "✅ Set"
                  | None => txt "❌ Not Set"
                  end) = Some (txt "✅ Set")
            ↔ Some h ≠ None ∧ ∃ c s, url = Some (c :: s)) as Hurl.
    { destruct url as [[|c s]|]; cbn [nonempty].
      - split; [intros H; vm_compute in H; discriminate|].
        by intros (_ & c & s & [=]).
      - split; [eauto|done].
      - split; [intros H; vm_compute in H; discriminate|].
        by intros (_ & c & s & [=]). }
    unfold test_database.
    destruct (list_collection_names h) as [names|e] eqn:Hl;
      cbn [t_backend t_database t_database_url t_database_name
           t_connection_status t_collections set_database set_database_url
           set_database_name set_connection_status set_collections
           initial_report].
    + split; [done|]. split; [intros H; vm_compute in H; discriminate|].
      split; [vm_compute; lia|].
      split; [intros h' e' [= <-] He; rewrite Hl in He; discriminate|].
      split; [done|]. split; [by eauto|]. split; [by eauto|]. exact Hurl.
    + split; [done|]. split.
      { intros H. apply (f_equal head) in H. vm_compute in H. discriminate. }
      split; [rewrite length_app, length_take, Hlen; lia|].
      split; [intros h' e' [= <-] He; rewrite Hl in He; by injection He as <-|].
      split; [done|]. split; [by eauto|]. split; [by eauto|]. exact Hurl.
  - unfold test_database.
    cbn [t_backend t_database t_database_url t_database_name
         t_connection_status t_collections set_database initial_report].
    split; [done|]. split; [intros H; vm_compute in H; discriminate|].
    split; [vm_compute; lia|]. split; [done|].
    split; [split; [intros H; vm_compute in H; discriminate|done]|].
    split; [split; [by intros [? ?]|done]|].
    split; [split; [by intros [? ?]|done]|].
    split; [done|by intros [? _]].
Qed.

(** X17 and X18, at a store of twelve collections and at one that raises. *)
Lemma health_report_collections_witness :
  t_collections
    (test_database
       (Some {| handle_name := Some (txt "shop");
                list_collection_names :=
                  Returns ((λ n, txt "c" ++ [hex_digit n]) <$> seq 0 12) |})
       None)
  = take 10 ((λ n, txt "c" ++ [hex_digit n]) <$> seq 0 12).
Proof.
  apply (proj1 (proj2 (health_report_collections
           (Some {| handle_name := Some (txt "shop");
                    list_collection_names :=
                      Returns ((λ n, txt "c" ++ [hex_digit n]) <$> seq 0 12) |})
           None)) _ _ eq_refl eq_refl).
Defined.

Lemma health_report_status_witness :
  t_database
    (test_database
       (Some {| handle_name := None;
                list_collection_names := Raises (replicate 200 120%N) |})
       (Some (txt "mongodb://localhost")))
  = txt "⚠️ Connected but Error: " ++ take 80 (replicate 200 120%N).
Proof.
  apply (proj1 (proj2 (proj2 (proj2 (health_report_status
           (Some {| handle_name := None;
                    list_collection_names := Raises (replicate 200 120%N) |})
           (Some (txt "mongodb://localhost")))))) _ _ eq_refl eq_refl).
Defined.

(** ** Seeding *)

Lemma collection_insert_eq (h : database) name l :
  collection (<[name := l]> h) name = l.
Proof. unfold collection. by rewrite lookup_insert_eq. Qed.

Lemma missing_or_empty_spec (h : database) name :
  missing_or_empty h name = true ↔ collection h name = [].
Proof.
  unfold missing_or_empty, collection.
  rewrite orb_true_iff, bool_decide_eq_true, Nat.eqb_eq, not_elem_of_dom.
  split.
  - intros [->|Hl]; [done|]. by apply nil_length_inv.
  - intros ->. by right.
Qed.

Lemma categories_length : length categories = 6%nat.
Proof. reflexivity. Qed.

Lemma demo_products_length : length demo_products = 4%nat.
Proof. reflexivity. Qed.

Section SeedingFacts.
Context (new_id : nat → text).

Lemma insert_many_length coll docs :
  length (insert_many new_id coll docs) = (length coll + length docs)%nat.
Proof. unfold insert_many. by rewrite length_app, length_imap. Qed.

(** One step of seeding: the collection [name], when empty or missing,
    receives the documents; every other collection stays as it is. *)
Lemma seed_collection_spec h name docs :
  docs ≠ [] →
  (collection h name = [] →
   collection (seed_collection new_id h name docs) name
   = insert_many new_id [] docs)
  ∧ (collection h name ≠ [] → seed_collection new_id h name docs = h)
  ∧ collection (seed_collection new_id h name docs) name ≠ []
  ∧ (∀ name', name' ≠ name →
       seed_collection new_id h name docs !! name' = h !! name').
Proof.
  intros Hdocs. unfold seed_collection.
  assert (length docs ≠ 0)%nat as Hlen by (by destruct docs).
  destruct (missing_or_empty h name) eqn:Hm.
  - apply missing_or_empty_spec in Hm.
    destruct (Nat.eqb_spec (length docs) 0) as [?|_]; [done|].
    rewrite collection_insert_eq. split; [by rewrite Hm|].
    split; [by intros Hne|]. split.
    + intros Hnil. apply (f_equal length) in Hnil.
      rewrite insert_many_length in Hnil. simpl in Hnil. lia.
    + intros name' Hne. by rewrite lookup_insert_ne.
  - assert (collection h name ≠ []) as Hne.
    { intros Hnil. apply missing_or_empty_spec in Hnil. congruence. }
    split; [done|]. split; [done|]. split; [done|]. done.
Qed.

Lemma categories_nonempty : categories ≠ [].
Proof. done. Qed.

Lemma demo_products_nonempty : demo_products ≠ [].
Proof. done. Qed.

Lemma collection_other (h h' : database) name :
  h' !! name = h !! name → collection h' name = collection h name.
Proof. unfold collection. by intros ->. Qed.

(** X19: seeding leaves a store in which both collections hold documents,
    and so seeding again changes nothing. *)
Theorem ensure_seed_idempotent (db : option database) :
  _ensure_seed new_id (_ensure_seed new_id db) = _ensure_seed new_id db
  ∧ (∀ h', _ensure_seed new_id db = Some h' →
       collection h' "category" ≠ [] ∧ collection h' "product" ≠ []).
Proof.
  destruct db as [h|]; [|done]. unfold _ensure_seed.
  set (h1 := seed_collection new_id h "category" categories).
  set (h2 := seed_collection new_id h1 "product" demo_products).
  destruct (seed_collection_spec h "category" categories categories_nonempty)
    as (_ & _ & Hc1 & _).
  destruct (seed_collection_spec h1 "product" demo_products
              demo_products_nonempty) as (_ & _ & Hp2 & Hother).
  fold h1 in Hc1. fold h2 in Hp2, Hother.
  assert (collection h2 "category" ≠ []) as Hc2.
  { by rewrite (collection_other h1 h2 "category") by (by apply Hother). }
  split.
  - destruct (seed_collection_spec h2 "category" categories categories_nonempty)
      as (_ & Hsame & _).
    rewrite (Hsame Hc2).
    destruct (seed_collection_spec h2 "product" demo_products
                demo_products_nonempty) as (_ & Hsame' & _).
    by rewrite (Hsame' Hp2).
  - by intros h' [= <-].
Qed.

Lemma ensure_seed_collections (h : database) :
  _ensure_seed new_id None = None
  ∧ ∃ h', _ensure_seed new_id (Some h) = Some h'
      ∧ (collection h "category" ≠ [] →
         collection h' "category" = collection h "category")
      ∧ (collection h "product" ≠ [] →
         collection h' "product" = collection h "product")
      ∧ (collection h "category" = [] →
         collection h' "category" = insert_many new_id [] categories
         ∧ length (collection h' "category") = 6%nat)
      ∧ (collection h "product" = [] →
         collection h' "product" = insert_many new_id [] demo_products
         ∧ length (collection h' "product") = 4%nat)
      ∧ (∀ name, name ≠ "category" → name ≠ "product" → h' !! name = h !! name).
Proof.
  split; [done|]. unfold _ensure_seed.
  set (h1 := seed_collection new_id h "category" categories).
  set (h2 := seed_collection new_id h1 "product" demo_products).
  exists h2. split; [done|].
  destruct (seed_collection_spec h "category" categories categories_nonempty)
    as (Hc_new & Hc_old & _ & Hc_other).
  destruct (seed_collection_spec h1 "product" demo_products
              demo_products_nonempty) as (Hp_new & Hp_old & _ & Hp_other).
  fold h1 in Hc_new, Hc_old, Hc_other. fold h2 in Hp_new, Hp_old, Hp_other.
  assert (collection h2 "category" = collection h1 "category") as Hc21.
  { apply collection_other. by apply Hp_other. }
  assert (collection h1 "product" = collection h "product") as Hp10.
  { apply collection_other. by apply Hc_other. }
  split; [|split; [|split; [|split]]].
  - intros Hne. by rewrite Hc21, (Hc_old Hne).
  - intros Hne. rewrite Hp_old; [done|]. by rewrite Hp10.
  - intros Hnil. rewrite Hc21, (Hc_new Hnil), insert_many_length.
    by rewrite categories_length.
  - intros Hnil. rewrite Hp_new by (by rewrite Hp10).
    rewrite insert_many_length. by rewrite demo_products_length.
  - intros name H1 H2. rewrite Hp_other by done. by apply Hc_other.
Qed.

(** X20: seeding fills exactly the collections that are empty or missing:
    the six demo categories, the four demo products.  A collection that
    holds a document is left as it is, every other collection of the store
    too, and without a store nothing happens. *)
Theorem ensure_seed_fills_only_empty (h : database) :
  _ensure_seed new_id None = None
  ∧ ∃ h', _ensure_seed new_id (Some h) = Some h'
      ∧ (collection h "category" ≠ [] →
         collection h' "category" = collection h "category")
      ∧ (collection h "product" ≠ [] →
         collection h' "product" = collection h "product")
      ∧ (collection h "category" = [] →
         collection h' "category" = insert_many new_id [] categories
         ∧ length (collection h' "category") = 6%nat)
      ∧ (collection h "product" = [] →
         collection h' "product" = insert_many new_id [] demo_products
         ∧ length (collection h' "product") = 4%nat)
      ∧ (∀ name, name ≠ "category" → name ≠ "product" → h' !! name = h !! name).
Proof. apply ensure_seed_collections. Qed.
End SeedingFacts.

(** X19 and X20, on a store without collections. *)
Lemma ensure_seed_idempotent_witness :
  ∃ h', _ensure_seed counter_id (Some ∅) = Some h'
        ∧ collection h' "category" ≠ [] ∧ collection h' "product" ≠ [].
Proof.
  destruct (_ensure_seed counter_id (Some ∅)) as [h'|] eqn:Hseed.
  - exists h'. split; [done|].
    by apply (proj2 (ensure_seed_idempotent counter_id (Some ∅)) h').
  - discriminate Hseed.
Defined.

Lemma ensure_seed_fills_only_empty_witness :
  ∃ h', _ensure_seed counter_id (Some seed_db) = Some h'
        ∧ collection h' "product" = collection seed_db "product"
        ∧ length (collection h' "category") = 6%nat.
Proof.
  destruct (proj2 (ensure_seed_fills_only_empty counter_id seed_db))
    as (h' & Hseed & _ & Hp & Hc & _).
  exists h'. split; [done|]. split.
  - apply Hp. discriminate.
  - by apply Hc.
Defined.

(** ** Listing a freshly seeded store *)

Lemma well_typed_insert_id (d : doc) v :
  well_typed d → well_typed (<["_id" := v]> d).
Proof.
  unfold well_typed. rewrite !forallb_forall. intros Hd [k t] Hin.
  specialize (Hd _ Hin). cbn [fst snd] in *.
  rewrite lookup_insert_ne; [done|].
  intros <-. unfold Product_types in Hin. cbn [In] in Hin.
  intuition discriminate.
Qed.

Lemma demo_products_seedable : Forall seedable demo_products.
Proof.
  repeat constructor; try (vm_compute; reflexivity); vm_compute; eauto.
Qed.

Lemma categories_seedable : Forall category_seedable categories.
Proof.
  repeat constructor; try (vm_compute; reflexivity);
    eexists _, _, _; repeat split; vm_compute; reflexivity.
Qed.

Section SeedThenList.
Context (P : PyRuntime) (M : Mongo) (new_id : nat → text).

Lemma category_doc_projects d hex n s i :
  d !! "_id" = Some (VOid hex) → d !! "name" = Some (VStr n) →
  d !! "slug" = Some (VStr s) → d !! "icon" = Some (VStr i) →
  project_category P d
  = Ok {| c_id := hex; c_name := n; c_slug := s; c_icon := Some i |}.
Proof.
  intros Hid Hn Hs Hi. unfold project_category, CategoryOut_new.
  rewrite (required_present _ _ "id" (VStr hex) hex);
    [|by apply to_id_str_id|apply as_str_ok].
  cbn [mbind result_bind].
  rewrite (required_present _ _ "name" (VStr n) n);
    [|by rewrite to_id_str_lookup|apply as_str_ok].
  cbn [mbind result_bind].
  rewrite (required_present _ _ "slug" (VStr s) s);
    [|by rewrite to_id_str_lookup|apply as_str_ok].
  cbn [mbind result_bind]. unfold defaulted.
  rewrite to_id_str_lookup, Hi by done. cbn [as_opt_str fmap option_fmap option_map].
  by rewrite as_str_ok.
Qed.

(** A document the store inserted into an empty collection. *)
Lemma inserted_doc docs x :
  Forall (λ d, d !! "_id" = None) docs →
  x ∈ insert_many new_id [] docs →
  ∃ i d, docs !! i = Some d ∧ x = <["_id" := VOid (new_id i)]> d.
Proof.
  intros Hdocs. unfold insert_many. rewrite app_nil_l.
  intros (i & d & -> & Hd)%elem_of_lookup_imap.
  exists i, d. split; [done|].
  rewrite Forall_forall in Hdocs.
  rewrite (Hdocs d) by (by eapply list_elem_of_lookup_2). done.
Qed.

Lemma comprehension_all_Ok {A B} (f : A → result B) l :
  Forall (λ a, ∃ b, f a = Ok b) l → ∃ bs, comprehension f l = Ok bs.
Proof.
  induction 1 as [|a l [b Hb] _ [bs Hbs]]; [by eexists|].
  exists (b :: bs). simpl. by rewrite Hb, Hbs.
Qed.

(** X21: the demo data is servable.  After seeding a store whose product
    collection was empty, a listing without search string returns the demo
    products, as many as the limit allows, each under an identifier the
    store assigned; and when the handle counts as true, the category
    listing of a store seeded from an empty category collection returns the
    six demo categories. *)
Theorem seeded_store_lists_demo_data h h' :
  _ensure_seed new_id (Some h) = Some h' →
  (collection h "product" = [] →
   ∀ category min_price max_price sort limit, 0 < limit →
     ∃ items,
       get_products P M (Some h') None category min_price max_price sort limit
       = Ok items
       ∧ (length items ≤ 4)%nat
       ∧ (build_filter None category min_price max_price = [] →
          length items = Nat.min (Z.to_nat limit) 4)
       ∧ Forall (λ r, ∃ i, (i < 4)%nat ∧ p_id r = new_id i) items)
  ∧ (collection h "category" = [] → db_truth M = Ok true →
     ∃ items, get_categories P M (Some h') = Ok items
              ∧ length items = 6%nat).
Proof.
  intros Hseed.
  destruct (proj2 (ensure_seed_collections new_id h))
    as (h2 & Hseed2 & _ & _ & Hc & Hp & _).
  rewrite Hseed in Hseed2. injection Hseed2 as <-.
  split.
  - intros Hempty category min_price max_price sort limit Hlimit.
    destruct (Hp Hempty) as [Hcoll Hlen].
    assert (∀ d, d ∈ collection h' "product" →
                 ∃ i, (i < 4)%nat ∧ d !! "_id" = Some (VOid (new_id i))
                      ∧ ∃ r, project_product P d = Ok r) as Hdocs.
    { intros d Hd. rewrite Hcoll in Hd.
      apply inserted_doc in Hd as (i & p & Hi & ->);
        [|eapply Forall_impl; [exact demo_products_seedable|by intros ? [? _]]].
      pose proof (lookup_lt_Some _ _ _ Hi) as Hlt.
      rewrite demo_products_length in Hlt.
      destruct (proj1 (Forall_forall _ _) demo_products_seedable p)
        as (_ & Hty & Ht & Hpr & Hca & Hra & Hrc);
        [by eapply list_elem_of_lookup_2|].
      exists i. split; [done|]. split; [by rewrite lookup_insert_eq|].
      apply (typed_doc_projects P _ (new_id i));
        rewrite ?lookup_insert_eq, ?lookup_insert_ne by done;
        try done. by apply well_typed_insert_id. }
    assert (query_in_model (build_filter None category min_price max_price)
            = true) as Hq by apply build_filter_no_q_in_model.
    rewrite get_products_unfold by done.
    set (docs := take_limit limit _).
    assert (∀ d, d ∈ docs → d ∈ collection h' "product") as Hsub.
    { intros d Hd. subst docs. apply take_limit_sublist in Hd.
      rewrite sort_perm in Hd.
      by apply list_elem_of_In, filter_In, proj1, list_elem_of_In in Hd. }
    destruct (comprehension_all_Ok (project_product P) docs) as [items Hitems].
    { apply Forall_forall. intros d Hd.
      by destruct (Hdocs d (Hsub d Hd)) as (_ & _ & _ & Hr). }
    exists items. split; [done|].
    pose proof (comprehension_length _ _ _ Hitems) as Hlen'.
    assert (length docs = Nat.min (Z.to_nat limit)
              (length (List.filter
                 (doc_matches M (build_filter None category min_price max_price))
                 (collection h' "product")))) as Hdl.
    { subst docs. rewrite take_limit_length by done. by rewrite sort_perm. }
    pose proof (filter_length_le
                  (doc_matches M (build_filter None category min_price max_price))
                  (collection h' "product")) as Hfl.
    split; [lia|]. split.
    + intros Hnone. rewrite Hlen', Hdl, Hnone.
      by rewrite filter_all, Hlen.
    + apply comprehension_Ok in Hitems. apply Forall_forall. intros r Hr.
      apply list_elem_of_lookup in Hr as [j Hj].
      destruct (Forall2_lookup_r _ _ _ _ _ Hitems Hj) as (d & Hd & Hproj).
      apply list_elem_of_lookup_2 in Hd.
      destruct (Hdocs d (Hsub d Hd)) as (i & Hi & Hid & _).
      exists i. split; [done|]. by apply (project_product_id P d).
  - intros Hempty Htruth. destruct (Hc Hempty) as [Hcoll Hlen].
    assert (get_categories P M (Some h')
            = comprehension (project_category P) (collection h' "category"))
      as ->.
    { unfold get_categories. rewrite Htruth. cbn [mbind result_bind].
      by rewrite fetch_find_all. }
    destruct (comprehension_all_Ok (project_category P)
                (collection h' "category")) as [items Hitems].
    { apply Forall_forall. intros d Hd. rewrite Hcoll in Hd.
      apply inserted_doc in Hd as (i & p & Hi & ->);
        [|eapply Forall_impl; [exact categories_seedable|by intros ? [? _]]].
      destruct (proj1 (Forall_forall _ _) categories_seedable p)
        as (_ & n & s & ic & Hn & Hs & Hic);
        [by eapply list_elem_of_lookup_2|].
      eexists. apply (category_doc_projects _ (new_id i) n s ic);
        by rewrite ?lookup_insert_eq, ?lookup_insert_ne by done. }
    exists items. split; [done|].
    apply comprehension_length in Hitems. by rewrite Hitems.
Qed.
End SeedThenList.

(** X21, on a store without collections. *)
Lemma seeded_store_lists_demo_data_witness :
  ∃ h', _ensure_seed counter_id (Some ∅) = Some h'
        ∧ (∃ items,
             get_products strict live_store (Some h') None None None None None 24
             = Ok items
             ∧ (length items ≤ 4)%nat
             ∧ (build_filter None None None None = [] →
                length items = Nat.min (Z.to_nat 24) 4)
             ∧ Forall (λ r, ∃ i, (i < 4)%nat ∧ p_id r = counter_id i) items)
        ∧ ∃ items, get_categories strict live_store (Some h') = Ok items
                   ∧ length items = 6%nat.
Proof.
  destruct (_ensure_seed counter_id (Some ∅)) as [h'|] eqn:Hseed;
    [|discriminate Hseed].
  exists h'. split; [done|].
  destruct (seeded_store_lists_demo_data strict live_store counter_id ∅ h' Hseed)
    as [Hp Hc].
  split.
  - apply (Hp eq_refl None None None None 24). lia.
  - by apply Hc.
Defined.
